(** * books-api: a shallow embedding of the request pipeline

    The development follows the repository file by file:
    - [Js]           the JavaScript values and primitives the code relies on;
    - [Pg]           the store behind [config/database.js]: the table of
                     [database.sql] and the statements the repository sends;
    - [ErrorHandler] [middleware/errorHandler.js];
    - [Validation]   [middleware/validation.js];
    - [Book]         [models/Book.js];
    - [Routes]       [routes/books.js].

    Numbers are integers ([Z]): ids, counts, pages, years and timestamps are
    integers in the code, and no property below depends on a fractional
    price.  Strings are byte strings; case folding is the ASCII one. *)

From Stdlib Require Import ZArith QArith Qround Lia Ascii String.
From stdpp Require Import base option list sorting gmap strings pretty.

#[local] Set Warnings "-register-all".

Local Open Scope string_scope.
Local Open Scope Z_scope.
Local Open Scope list_scope.

(** ** JavaScript values *)

Module Js.

Inductive value :=
| VUndefined
| VNull
| VBool (b : bool)
| VNum (n : Z)
| VStr (s : string).

#[global] Instance value_eq_dec : EqDecision value.
Proof. solve_decision. Defined.

#[global] Instance value_inhabited : Inhabited value := populate VUndefined.

(** A plain object: request bodies, query strings and table rows. *)
Abbreviation obj := (gmap string value).

(** [o[k]]: a key that is not there reads as [undefined]. *)
Definition prop (o : obj) (k : string) : value := default VUndefined (o !! k).

(** Truthiness, as [if (v)], [v || d] and [!v] use it. *)
Definition truthy (v : value) : bool :=
  match v with
  | VUndefined | VNull => false
  | VBool b => b
  | VNum n => negb (n =? 0)
  | VStr s => negb (String.eqb s "")
  end.

(** [a === b] and [a !== b] on primitives. *)
Definition strict_eq (a b : value) : bool := bool_decide (a = b).
Definition strict_ne (a b : value) : bool := negb (strict_eq a b).

(** [a || b] *)
Definition or_else (a b : value) : value := if truthy a then a else b.

Definition is_upper (c : ascii) : bool :=
  let n := N_of_ascii c in ((65 <=? n) && (n <=? 90))%N.
Definition is_lower (c : ascii) : bool :=
  let n := N_of_ascii c in ((97 <=? n) && (n <=? 122))%N.
Definition lower_char (c : ascii) : ascii :=
  if is_upper c then ascii_of_N (N_of_ascii c + 32) else c.
Definition upper_char (c : ascii) : ascii :=
  if is_lower c then ascii_of_N (N_of_ascii c - 32) else c.

Fixpoint map_string (f : ascii → ascii) (s : string) : string :=
  match s with
  | EmptyString => EmptyString
  | String c s' => String (f c) (map_string f s')
  end.

(** [s.toUpperCase()] *)
Definition toUpperCase : string → string := map_string upper_char.
Definition toLowerCase : string → string := map_string lower_char.

Definition is_digit (c : ascii) : bool :=
  let n := N_of_ascii c in ((48 <=? n) && (n <=? 57))%N.
Definition digit_val (c : ascii) : Z := Z.of_N (N_of_ascii c) - 48.

(** The value of a run of decimal digits, most significant first. *)
Fixpoint digits_val (acc : Z) (s : string) : Z :=
  match s with
  | EmptyString => acc
  | String c s' => digits_val (10 * acc + digit_val c) s'
  end.

Fixpoint all_chars (p : ascii → bool) (s : string) : bool :=
  match s with
  | EmptyString => true
  | String c s' => p c && all_chars p s'
  end.

(** The longest prefix of [s] made of characters satisfying [p]. *)
Fixpoint take_while (p : ascii → bool) (s : string) : string :=
  match s with
  | EmptyString => EmptyString
  | String c s' => if p c then String c (take_while p s') else EmptyString
  end.

Fixpoint drop_while (p : ascii → bool) (s : string) : string :=
  match s with
  | EmptyString => EmptyString
  | String c s' => if p c then drop_while p s' else s
  end.

(** [parseInt(s)]: leading white space, an optional sign, then the longest
    run of digits; [None] is [NaN]. *)
Definition parseInt_str (s : string) : option Z :=
  let s1 := drop_while Ascii.is_space s in
  let '(neg, s2) :=
    match s1 with
    | String "-" r => (true, r)
    | String "+" r => (false, r)
    | _ => (false, s1)
    end in
  let ds := take_while is_digit s2 in
  match ds with
  | EmptyString => None
  | _ => Some (if neg : bool then - digits_val 0 ds else digits_val 0 ds)
  end.

Definition parseInt (v : value) : option Z :=
  match v with
  | VStr s => parseInt_str s
  | VNum n => Some n
  | _ => None
  end.

(** [parseInt(v) || d]: [NaN] and [0] are falsy. *)
Definition parseInt_or (v : value) (d : Z) : Z :=
  match parseInt v with
  | Some n => if n =? 0 then d else n
  | None => d
  end.

(** [`${v}`]: a value inside a template literal. *)
Definition interpolate (v : value) : string :=
  match v with
  | VStr s => s
  | VNum n => pretty n
  | VBool true => "true"
  | VBool false => "false"
  | VNull => "null"
  | VUndefined => "undefined"
  end.

End Js.
Export Js.

(** ** Responses and exceptions *)

Module Http.

(** A JSON document under construction: [res.json(...)] drops the keys whose
    value is [undefined] when it serialises the object. *)
Inductive json :=
| JVal (v : value)
| JRec (o : obj)
| JArr (items : list json)
| JObj (fields : list (string * json)).

Record response := Response { status : Z; body : json }.

Definition is_undefined (j : json) : bool :=
  match j with JVal VUndefined => true | _ => false end.

(** The members a serialised object is sent with. *)
Definition sent (j : json) : list (string * json) :=
  match j with
  | JObj fs => List.filter (λ kv, negb (is_undefined kv.2)) fs
  | _ => []
  end.

(** The value of key [k] of a serialised object, if the key is sent. *)
Definition field (k : string) (j : json) : option json :=
  snd <$> List.find (λ kv, String.eqb kv.1 k) (sent j).

Definition sent_keys (j : json) : list string := (sent j).*1.

(** What [errorHandler] reads of a thrown object: [message] and, for the
    errors of the store driver, [code] and [detail]; [api] is set for
    instances of [ApiError] (status code, details, timestamp); [array] is
    the [array()] method of a validation result. *)
Record exn := Exn {
  e_message : string;
  e_code : value;
  e_detail : value;
  e_api : option (Z * json * Z);
  e_array : option (list json)
}.

End Http.
Export Http.

(** ** The store: the [books] table of [database.sql] behind [query]

    PostgreSQL itself is outside the repository.  This module gives the
    meaning of the few statement forms [models/Book.js] sends, on the schema
    that [database.sql] declares: the serial primary key, [NOT NULL] on
    [title] and [author], [UNIQUE] on [isbn], the defaults of [in_stock],
    [created_at] and [updated_at], and the trigger that refreshes
    [updated_at] before every row update.  Column types and lengths are not
    checked: a bound parameter is stored as it is given. *)

Module Pg.

(** *** LIKE patterns *)

Inductive ltok := LAny | LOne | LLit (c : ascii).

#[global] Instance ltok_eq_dec : EqDecision ltok.
Proof. solve_decision. Defined.

(** [%] any run of characters, [_] any one character, backslash quotes the
    next character; a pattern may not end in a lone backslash. *)
Fixpoint like_tokens (p : string) : option (list ltok) :=
  match p with
  | EmptyString => Some []
  | String "%" r => cons LAny <$> like_tokens r
  | String "_" r => cons LOne <$> like_tokens r
  | String "\" EmptyString => None
  | String "\" (String c r) => cons (LLit c) <$> like_tokens r
  | String c r => cons (LLit c) <$> like_tokens r
  end.

Fixpoint like_match (ts : list ltok) : string → bool :=
  match ts with
  | [] => λ s, match s with EmptyString => true | _ => false end
  | LAny :: ts' =>
      fix star (s : string) : bool :=
        like_match ts' s
        || match s with EmptyString => false | String _ s' => star s' end
  | LOne :: ts' =>
      λ s, match s with EmptyString => false | String _ s' => like_match ts' s' end
  | LLit c :: ts' =>
      λ s, match s with
           | EmptyString => false
           | String c' s' => bool_decide (c = c') && like_match ts' s'
           end
  end.

Definition fold_tok (t : ltok) : ltok :=
  match t with LLit c => LLit (lower_char c) | _ => t end.

(** [s ILIKE p]; [None] when the pattern is malformed. *)
Definition ilike (p s : string) : option bool :=
  ts ← like_tokens p; Some (like_match (fold_tok <$> ts) (toLowerCase s)).

(** *** Ordering of column values: [ORDER BY], ascending, nulls last *)

Definition rank (v : value) : Z :=
  match v with
  | VBool _ => 0 | VNum _ => 1 | VStr _ => 2 | VNull | VUndefined => 3
  end.

Definition value_le (a b : value) : Prop :=
  match a, b with
  | VBool x, VBool y => implb x y
  | VNum x, VNum y => x ≤ y
  | VStr x, VStr y => String.le x y
  | _, _ => rank a ≤ rank b
  end.

#[global] Instance value_le_dec : RelDecision value_le.
Proof. intros [] []; simpl; apply _. Defined.

Inductive direction := ASC | DESC.

#[global] Instance direction_eq_dec : EqDecision direction.
Proof. solve_decision. Defined.

Definition row_le (col : string) (d : direction) (r1 r2 : obj) : Prop :=
  match d with
  | ASC => value_le (prop r1 col) (prop r2 col)
  | DESC => value_le (prop r2 col) (prop r1 col)
  end.

#[global] Instance row_le_dec col d : RelDecision (row_le col d).
Proof. intros r1 r2; destruct d; simpl; apply _. Defined.

(** *** Statements *)

(** Conditions over a row; [i] is the positional parameter [$i]. *)
Inductive cond :=
| ILike (col : string) (i : nat)
| Equals (col : string) (i : nat)
| Or (a b : cond).

#[global] Instance cond_eq_dec : EqDecision cond.
Proof. solve_decision. Defined.

Inductive stmt :=
(** [SELECT * FROM books WHERE .. ORDER BY col dir LIMIT $l OFFSET $o];
    the conditions are joined by [AND], none means no [WHERE]. *)
| Select (where_ : list cond) (order : option (string * direction))
         (limit_offset : option (nat * nat))
(** [SELECT COUNT( * ) as total FROM books WHERE ..] *)
| SelectCount (where_ : list cond)
(** [INSERT INTO books (cols) VALUES ($1, .., $n) RETURNING *] *)
| Insert (cols : list string)
(** [UPDATE books SET col = $i, .. WHERE .. RETURNING *] *)
| Update (sets : list (string * nat)) (where_ : list cond)
(** [DELETE FROM books WHERE .. RETURNING id] *)
| Delete (where_ : list cond).

Record store := Store {
  books : list obj;      (* the rows, in heap order *)
  books_id_seq : Z;      (* the next value of the serial sequence *)
  clock : Z              (* the current time *)
}.

Record qresult := QResult { rows : list obj; rowCount : nat }.

(** The driver sends [undefined] as [NULL]. *)
Definition bound (params : list value) (i : nat) : value :=
  match params !! (i - 1)%nat with
  | Some VUndefined | None => VNull
  | Some v => v
  end.

Definition is_null (v : value) : bool :=
  match v with VNull | VUndefined => true | _ => false end.

(** Three-valued logic: [None] is SQL's unknown. *)
Definition or3 (a b : option bool) : option bool :=
  match a, b with
  | Some true, _ | _, Some true => Some true
  | Some false, Some false => Some false
  | _, _ => None
  end.

Fixpoint eval_cond (params : list value) (r : obj) (c : cond) : option bool :=
  match c with
  | ILike col i =>
      match prop r col, bound params i with
      | VStr s, VStr p => ilike p s
      | _, _ => None
      end
  | Equals col i =>
      let a := prop r col in
      let b := bound params i in
      if is_null a || is_null b then None else Some (strict_eq a b)
  | Or a b => or3 (eval_cond params r a) (eval_cond params r b)
  end.

(** A row is selected when every condition is true for it. *)
Definition selected (params : list value) (w : list cond) (r : obj) : bool :=
  forallb (λ c, bool_decide (eval_cond params r c = Some true)) w.

Fixpoint patterns_ok (params : list value) (c : cond) : bool :=
  match c with
  | ILike _ i =>
      match bound params i with
      | VStr p => bool_decide (is_Some (like_tokens p))
      | _ => true
      end
  | Equals _ _ => true
  | Or a b => patterns_ok params a && patterns_ok params b
  end.

(** *** Constraints of the schema *)

Definition columns : list string :=
  ["id"; "title"; "author"; "isbn"; "publication_year"; "genre"; "pages";
   "description"; "price"; "in_stock"; "created_at"; "updated_at"].

(** The row an [INSERT] starts from: the column defaults. *)
Definition default_row (id now : Z) : obj :=
  list_to_map
    [("id", VNum id); ("title", VNull); ("author", VNull); ("isbn", VNull);
     ("publication_year", VNull); ("genre", VNull); ("pages", VNull);
     ("description", VNull); ("price", VNull); ("in_stock", VBool true);
     ("created_at", VNum now); ("updated_at", VNum now)].

(** [col = $i] for each pair, left to right. *)
Definition assign (params : list value) (sets : list (string * nat)) (r : obj) : obj :=
  foldl (λ acc cs, <[cs.1 := bound params cs.2]> acc) r sets.

(** The first [NOT NULL] column that row [r] leaves null. *)
Definition null_violation (r : obj) : option string :=
  List.find (λ c, is_null (prop r c)) ["title"; "author"].

(** [UNIQUE (isbn)]: nulls never collide. *)
Definition isbn_taken (t : list obj) (v : value) : bool :=
  negb (is_null v) && existsb (λ r, strict_eq (prop r "isbn") v) t.

(** The first rewritten row whose isbn another row of the new table holds. *)
Fixpoint dup_isbn (before : list obj) (rest : list (bool * obj)) : option value :=
  match rest with
  | [] => None
  | (touched, r) :: rest' =>
      if touched && isbn_taken (before ++ rest'.*2) (prop r "isbn")
      then Some (prop r "isbn")
      else dup_isbn (before ++ [r]) rest'
  end.

(** *** Running a statement *)

Definition pg_error (code message : string) (detail : value) : exn :=
  Exn message (VStr code) detail None None.

Definition unique_violation (v : value) : exn :=
  pg_error "23505"
    "duplicate key value violates unique constraint books_isbn_key"
    (VStr ("Key (isbn)=(" +:+ match v with VStr s => s | _ => "" end
           +:+ ") already exists.")).

Definition not_null_violation (c : string) : exn :=
  pg_error "23502"
    ("null value in column " +:+ c +:+ " violates not-null constraint")
    VUndefined.

Inductive result (A : Type) :=
| Ok (a : A)
| Throw (e : exn).
Arguments Ok {A} a.
Arguments Throw {A} e.

(** A computation that awaits the store: it ends in a value or in a thrown
    object, and leaves a store behind. *)
Definition M (A : Type) : Type := store → result A * store.

Definition ret {A} (a : A) : M A := λ st, (Ok a, st).
Definition throw {A} (e : exn) : M A := λ st, (Throw e, st).
Definition bind {A B} (m : M A) (k : A → M B) : M B :=
  λ st, match m st with
        | (Ok a, st') => k a st'
        | (Throw e, st') => (Throw e, st')
        end.
(** [new Date()] *)
Definition now : M Z := λ st, (Ok (clock st), st).

Definition page_of (params : list value) (lo : option (nat * nat)) (l : list obj)
  : result (list obj) :=
  match lo with
  | None => Ok l
  | Some (il, io) =>
      match bound params il, bound params io with
      | VNum lim, VNum off =>
          if lim <? 0 then Throw (pg_error "2201W" "LIMIT must not be negative" VUndefined)
          else if off <? 0 then Throw (pg_error "2201X" "OFFSET must not be negative" VUndefined)
          else Ok (take (Z.to_nat lim) (drop (Z.to_nat off) l))
      | _, _ => Throw (pg_error "22P02" "invalid input syntax for type bigint" VUndefined)
      end
  end.

Definition sort_by (order : option (string * direction)) (l : list obj) : list obj :=
  match order with
  | Some (c, d) => merge_sort (row_le c d) l
  | None => l
  end.

Definition rewrite_rows (params : list value) (sets : list (string * nat))
    (w : list cond) (now : Z) (t : list obj) : list (bool * obj) :=
  (λ r, if selected params w r
        then (true, <["updated_at" := VNum now]> (assign params sets r))
        else (false, r)) <$> t.

Definition touched (t : list (bool * obj)) : list obj :=
  (List.filter fst t).*2.

Definition bad_pattern : exn :=
  pg_error "22025" "LIKE pattern must not end with escape character" VUndefined.

(** [query(text, params)] of [config/database.js]. *)
Definition query (q : stmt) (params : list value) : M qresult := λ st,
  let t := books st in
  match q with
  | Select w order lo =>
      if negb (forallb (patterns_ok params) w) then (Throw bad_pattern, st) else
      match page_of params lo (sort_by order (List.filter (selected params w) t)) with
      | Ok l => (Ok (QResult l (length l)), st)
      | Throw e => (Throw e, st)
      end
  | SelectCount w =>
      if negb (forallb (patterns_ok params) w) then (Throw bad_pattern, st) else
      let n := length (List.filter (selected params w) t) in
      (Ok (QResult [{[ "total" := VNum (Z.of_nat n) ]}] 1), st)
  | Insert cols =>
      let id := books_id_seq st in
      let st1 := Store t (id + 1) (clock st) in
      let r := assign params (zip cols (seq 1 (length cols))) (default_row id (clock st)) in
      match null_violation r with
      | Some c => (Throw (not_null_violation c), st1)
      | None =>
          if isbn_taken t (prop r "isbn")
          then (Throw (unique_violation (prop r "isbn")), st1)
          else (Ok (QResult [r] 1), Store (t ++ [r]) (id + 1) (clock st))
      end
  | Update sets w =>
      if negb (forallb (patterns_ok params) w) then (Throw bad_pattern, st) else
      let t' := rewrite_rows params sets w (clock st) t in
      match list_find (λ r, is_Some (null_violation r)) (touched t') with
      | Some (_, r) => (Throw (not_null_violation (default "" (null_violation r))), st)
      | None =>
          match dup_isbn [] t' with
          | Some v => (Throw (unique_violation v), st)
          | None =>
              (Ok (QResult (touched t') (length (touched t'))),
               Store (t'.*2) (books_id_seq st) (clock st))
          end
      end
  | Delete w =>
      if negb (forallb (patterns_ok params) w) then (Throw bad_pattern, st) else
      let gone := List.filter (selected params w) t in
      (Ok (QResult ((λ r, {[ "id" := prop r "id" ]}) <$> gone) (length gone)),
       Store (List.filter (λ r, negb (selected params w r)) t) (books_id_seq st) (clock st))
  end.

End Pg.
Export Pg.

(** [const x = await m; k] *)
Notation "'await' x := m 'in' k" := (Pg.bind m (λ x, k))
  (at level 10, x name, m at level 100, k at level 200).

(** ** middleware/errorHandler.js *)

Module ErrorHandler.

(** [new ApiError(statusCode, message, details)], built at time [ts]. *)
Definition ApiError (statusCode : Z) (message : string) (details : json) (ts : Z) : exn :=
  Exn message VUndefined VUndefined (Some (statusCode, details, ts)) None.

Definition badRequest (message : string) (details : json) : M exn :=
  await ts := now in ret (ApiError 400 message details ts).
Definition notFound (message : string) : M exn :=
  await ts := now in ret (ApiError 404 message (JVal VNull) ts).
Definition conflict (message : string) (details : json) : M exn :=
  await ts := now in ret (ApiError 409 message details ts).
Definition internal (message : string) : M exn :=
  await ts := now in ret (ApiError 500 message (JVal VNull) ts).

Definition failure (error : string) (details : json) (ts : Z) : json :=
  JObj [("success", JVal (VBool false)); ("error", JVal (VStr error));
        ("details", details); ("timestamp", JVal (VNum ts))].

Definition failure_plain (error : string) (ts : Z) : json :=
  JObj [("success", JVal (VBool false)); ("error", JVal (VStr error));
        ("timestamp", JVal (VNum ts))].

(** The [switch (err.code)] on the codes of the store driver. *)
Definition pg_case (err : exn) (ts : Z) : option response :=
  if truthy (e_code err) then
    match e_code err with
    | VStr c =>
        if String.eqb c "23505" then
          Some (Response 409
                  (failure "Запись с такими данными уже существует" (JVal (e_detail err)) ts))
        else if String.eqb c "23503" then
          Some (Response 400
                  (failure "Нарушение связи с другой таблицей" (JVal (e_detail err)) ts))
        else if String.eqb c "22P02" then
          Some (Response 400 (failure_plain "Неверный формат данных" ts))
        else if String.eqb c "ECONNREFUSED" then
          Some (Response 503 (failure_plain "База данных недоступна" ts))
        else None
    | _ => None
    end
  else None.

(** [errorHandler(err, req, res, next)]; [production] is
    [process.env.NODE_ENV === 'production'] and [ts] the time of the call. *)
Definition errorHandler (production : bool) (ts : Z) (err : exn) : response :=
  match pg_case err ts with
  | Some r => r
  | None =>
      match e_api err with
      | Some (statusCode, details, created) =>
          Response statusCode (failure (e_message err) details created)
      | None =>
          match e_array err with
          | Some errors => Response 400 (failure "Ошибка валидации" (JArr errors) ts)
          | None =>
              Response 500
                (failure_plain
                   (if production then "Внутренняя ошибка сервера" else e_message err) ts)
          end
      end
  end.

End ErrorHandler.
Export ErrorHandler.

(** ** middleware/validation.js

    The chains are written with express-validator, which is not part of the
    repository.  The steps below follow that library's documented meaning:
    a validator is applied to the value turned into a string, every failing
    validator of every field is reported, [optional()] skips a field that is
    [undefined] (and [null] with [nullable]), a sanitizer writes its result
    back into the request.  Lengths are counted in bytes. *)

Module Validation.

(** The library's conversion of a field to a string. *)
Definition toString (v : value) : string :=
  match v with
  | VStr s => s
  | VNum n => pretty n
  | VBool true => "true"
  | VBool false => "false"
  | VNull | VUndefined => ""
  end.

(** [trim()]: white space is removed at both ends. *)
Definition trim (s : string) : string :=
  String.rev (drop_while Ascii.is_space (String.rev (drop_while Ascii.is_space s))).

Definition notEmpty (s : string) : bool := negb (String.eqb s "").

Definition isLength (min : nat) (max : option nat) (s : string) : bool :=
  let n := String.length s in
  (min <=? n)%nat && match max with Some m => (n <=? m)%nat | None => true end.

(** [^[-+]?[0-9]+$] and its value. *)
Definition int_of_string (s : string) : option Z :=
  let '(neg, ds) :=
    match s with
    | String "-" r => (true, r)
    | String "+" r => (false, r)
    | _ => (false, s)
    end in
  match ds with
  | EmptyString => None
  | _ => if all_chars is_digit ds
         then Some (if neg : bool then - digits_val 0 ds else digits_val 0 ds)
         else None
  end.

Definition isInt (min max : option Z) (s : string) : bool :=
  match int_of_string s with
  | Some n =>
      match min with Some lo => lo <=? n | None => true end
      && match max with Some hi => n <=? hi | None => true end
  | None => false
  end.

Definition isIn (allowed : list string) (s : string) : bool :=
  bool_decide (s ∈ allowed).

(** [isBoolean()] with its default options. *)
Definition isBoolean (s : string) : bool :=
  bool_decide (s ∈ ["true"; "false"; "1"; "0"]).

(** [matches(/^[\d\-X]+$/i)] *)
Definition isbn_char (c : ascii) : bool :=
  is_digit c || bool_decide (c = "-"%char) || bool_decide (c = "X"%char)
  || bool_decide (c = "x"%char).
Definition matches_isbn (s : string) : bool :=
  notEmpty s && all_chars isbn_char s.

Inductive step :=
| Trim
| Check (p : string → bool) (message : string).

Record chain := Chain {
  c_field : string;
  c_optional : option bool;     (* [Some nullable] for [optional()] *)
  c_steps : list step
}.

Record verror := VError { field_ : string; message_ : string; value_ : value }.

Definition skipped (c : chain) (v : value) : bool :=
  match c_optional c, v with
  | Some _, VUndefined => true
  | Some true, VNull => true
  | _, _ => false
  end.

Fixpoint run_steps (f : string) (steps : list step) (v : value) : value * list verror :=
  match steps with
  | [] => (v, [])
  | Trim :: rest => run_steps f rest (VStr (trim (toString v)))
  | Check p m :: rest =>
      let '(v', es) := run_steps f rest v in
      (v', if p (toString v) then es else VError f m v :: es)
  end.

(** One chain on one request part: the part after sanitizing, and the errors. *)
Definition run_chain (c : chain) (o : obj) : obj * list verror :=
  let v := prop o (c_field c) in
  if skipped c v then (o, [])
  else let '(v', es) := run_steps (c_field c) (c_steps c) v in
       (if bool_decide (v' = v) then o else <[c_field c := v']> o, es).

Fixpoint run_chains (cs : list chain) (o : obj) : obj * list verror :=
  match cs with
  | [] => (o, [])
  | c :: rest =>
      let '(o1, e1) := run_chain c o in
      let '(o2, e2) := run_chains rest o1 in
      (o2, e1 ++ e2)
  end.

Definition error_json (e : verror) : json :=
  JObj [("field", JVal (VStr (field_ e))); ("message", JVal (VStr (message_ e)));
        ("value", JVal (value_ e))].

(** [validate]: answers 400 when the chains reported an error, else lets the
    request through. *)
Definition validate (errors : list verror) (ts : Z) : option response :=
  match errors with
  | [] => None
  | _ => Some (Response 400
                 (failure "Ошибка валидации данных" (JArr (error_json <$> errors)) ts))
  end.

Definition sortable : list string :=
  ["id"; "title"; "author"; "publication_year"; "price"; "created_at"].

Definition listBooksValidation : list chain :=
  [ Chain "page" (Some false)
      [Check (isInt (Some 1) None) "Номер страницы должен быть положительным целым числом"];
    Chain "limit" (Some false)
      [Check (isInt (Some 1) (Some 100)) "Лимит должен быть от 1 до 100"];
    Chain "sortBy" (Some false)
      [Check (isIn sortable)
         "Сортировка возможна по: id, title, author, publication_year, price, created_at"];
    Chain "sortOrder" (Some false)
      [Check (isIn ["ASC"; "DESC"; "asc"; "desc"]) "Порядок сортировки: ASC или DESC"];
    Chain "inStock" (Some false)
      [Check isBoolean "inStock должен быть булевым значением"] ].

Definition searchValidation : list chain :=
  [ Chain "q" None
      [Trim;
       Check notEmpty "Поисковый запрос обязателен";
       Check (isLength 2 (Some 100%nat)) "Запрос должен быть от 2 до 100 символов"] ].

(** The [isbn] chain, the same in [createBookValidation] and
    [updateBookValidation]. *)
Definition isbnValidation : chain :=
  Chain "isbn" (Some true)
    [Trim;
     Check (isLength 10 (Some 20%nat)) "ISBN должен содержать от 10 до 20 символов";
     Check matches_isbn "ISBN может содержать только цифры, дефисы и X"].

End Validation.
Export Validation.

(** ** models/Book.js *)

Module Book.

(** The options [findAll] is called with.  The route always supplies
    [page], [limit], [sortBy] and [sortOrder], so the defaults of the
    destructuring never apply; [page] and [limit] are numbers there. *)
Record options := Options {
  page : Z;
  limit : Z;
  sortBy : value;
  sortOrder : value;
  genre : value;
  author : value;
  inStock : value
}.

(** The three [if] blocks that fill [whereConditions] and [params];
    the state is [(whereConditions, params, paramIndex)]. *)
Definition filters (o : options) : list cond * list value * nat :=
  let s0 : list cond * list value * nat := ([], [], 1%nat) in
  let s1 :=
    let '(w, ps, i) := s0 in
    if truthy (genre o)
    then (w ++ [ILike "genre" i], ps ++ [VStr ("%" +:+ interpolate (genre o) +:+ "%")], S i)
    else s0 in
  let s2 :=
    let '(w, ps, i) := s1 in
    if truthy (author o)
    then (w ++ [ILike "author" i], ps ++ [VStr ("%" +:+ interpolate (author o) +:+ "%")], S i)
    else s1 in
  let '(w, ps, i) := s2 in
  if strict_ne (inStock o) VUndefined
  then (w ++ [Equals "in_stock" i], ps ++ [inStock o], S i)
  else s2.

Definition allowedSortFields : list string :=
  ["id"; "title"; "author"; "publication_year"; "price"; "created_at"].

(** [allowedSortFields.includes(sortBy) ? sortBy : 'created_at'] *)
Definition safeSortBy (sortBy : value) : string :=
  match sortBy with
  | VStr s => if bool_decide (s ∈ allowedSortFields) then s else "created_at"
  | _ => "created_at"
  end.

(** [sortOrder.toUpperCase() === 'ASC' ? 'ASC' : 'DESC']; the method call
    throws on a value that is not a string. *)
Definition safeSortOrder (sortOrder : value) : M direction :=
  match sortOrder with
  | VStr s => ret (if String.eqb (toUpperCase s) "ASC" then ASC else DESC)
  | _ => throw (Exn "sortOrder.toUpperCase is not a function" VUndefined VUndefined None None)
  end.

(** [Math.ceil(total / limit)]; a division by zero gives [Infinity] or
    [NaN], which the response carries as [null]. *)
Definition ceil_div (total limit : Z) : value :=
  if limit =? 0 then VNull
  else VNum (Qceiling (inject_Z total / inject_Z limit)).

Definition num_or_null (v : value) : value :=
  match v with VNum n => VNum n | _ => VNull end.

Definition total_of (r : qresult) : value := prop (default ∅ (rows r !! 0%nat)) "total".

Definition pagination (page limit : Z) (total : value) : obj :=
  list_to_map
    [("currentPage", VNum page);
     ("totalPages", match total with VNum n => ceil_div n limit | _ => VNull end);
     ("totalItems", num_or_null total);
     ("itemsPerPage", VNum limit)].

(** The two statements of [findAll] with their parameters. *)
Definition findAll_sql (o : options) (d : direction) : stmt * list value :=
  let offset := (page o - 1) * limit o in
  let '(whereConditions, params, paramIndex) := filters o in
  (Select whereConditions (Some (safeSortBy (sortBy o), d)) (Some (paramIndex, S paramIndex)),
   params ++ [VNum (limit o); VNum offset]).

Definition findAll_countSql (o : options) (d : direction) : stmt * list value :=
  let '(whereConditions, _, _) := filters o in
  let params := (findAll_sql o d).2 in
  (SelectCount whereConditions, take (length params - 2) params).

Definition findAll (o : options) : M (list obj * obj) :=
  await d := safeSortOrder (sortOrder o) in
  await result := query (findAll_sql o d).1 (findAll_sql o d).2 in
  await countResult := query (findAll_countSql o d).1 (findAll_countSql o d).2 in
  ret (rows result, pagination (page o) (limit o) (total_of countResult)).

(** [result.rows[0] || null] *)
Definition first_row (r : qresult) : option obj := rows r !! 0%nat.

Definition findById (id : value) : M (option obj) :=
  await result := query (Select [Equals "id" 1] None None) [id] in
  ret (first_row result).

Definition findByIsbn (isbn : value) : M (option obj) :=
  await result := query (Select [Equals "isbn" 1] None None) [isbn] in
  ret (first_row result).

Definition fields : list string :=
  ["title"; "author"; "isbn"; "publication_year"; "genre"; "pages";
   "description"; "price"; "in_stock"].

(** [create]: [in_stock] defaults to [true] when it is [undefined]. *)
Definition create (bookData : obj) : M (option obj) :=
  let in_stock :=
    if strict_eq (prop bookData "in_stock") VUndefined then VBool true
    else prop bookData "in_stock" in
  let params :=
    [prop bookData "title"; prop bookData "author"; prop bookData "isbn";
     prop bookData "publication_year"; prop bookData "genre"; prop bookData "pages";
     prop bookData "description"; prop bookData "price"; in_stock] in
  await result := query (Insert fields) params in
  ret (first_row result).

(** One turn of the loop over [fields]; the state is
    [(updates, params, paramIndex)]. *)
Definition set_step (bookData : obj)
    (s : list (string * nat) * list value * nat) (field : string)
  : list (string * nat) * list value * nat :=
  let '(updates, params, paramIndex) := s in
  if strict_ne (prop bookData field) VUndefined
  then (updates ++ [(field, paramIndex)], params ++ [prop bookData field], S paramIndex)
  else (updates, params, paramIndex).

Definition set_clause (bookData : obj) : list (string * nat) * list value * nat :=
  foldl (set_step bookData) ([], [], 1%nat) fields.

Definition update (id : value) (bookData : obj) : M (option obj) :=
  await existingBook := findById id in
  match existingBook with
  | None => ret None
  | Some existing =>
      let '(updates, params, paramIndex) := set_clause bookData in
      if (length updates =? 0)%nat then ret (Some existing)
      else
        await result := query (Update updates [Equals "id" paramIndex]) (params ++ [id]) in
        ret (first_row result)
  end.


Definition search (searchTerm : value) : M (list obj) :=
  await result :=
    query (Select [Or (Or (ILike "title" 1) (ILike "author" 1)) (ILike "description" 1)]
                  (Some ("title", ASC)) None)
          [VStr ("%" +:+ interpolate searchTerm +:+ "%")] in
  ret (rows result).

End Book.

(** ** routes/books.js

    A handler is the body of the [try] block; [serve] is the [catch] that
    hands a thrown object to [errorHandler], and [guarded] puts validation
    chains in front.  The path parameter [:id], an integer literal once
    validation has passed, is taken as that integer. *)

Module Routes.

Definition serve (production : bool) (h : M response) (st : store) : response * store :=
  match h st with
  | (Ok r, st') => (r, st')
  | (Throw e, st') => (errorHandler production (clock st') e, st')
  end.

Definition guarded (production : bool) (chains : list chain) (part : obj)
    (h : obj → M response) (st : store) : response * store :=
  let '(part', errors) := run_chains chains part in
  match validate errors (clock st) with
  | Some r => (r, st)
  | None => serve production (h part') st
  end.

Definition success (fields : list (string * json)) : json :=
  JObj (("success", JVal (VBool true)) :: fields).

Definition row_json (r : option obj) : json :=
  match r with Some o => JRec o | None => JVal VUndefined end.

(** [throw ApiError.xxx(...)] *)
Definition raise {A} (e : M exn) : M A := await err := e in throw err.

(** [GET /api/books] *)
Definition list_options (q : obj) : Book.options :=
  Book.Options
    (parseInt_or (prop q "page") 1)
    (parseInt_or (prop q "limit") 10)
    (or_else (prop q "sortBy") (VStr "created_at"))
    (or_else (prop q "sortOrder") (VStr "DESC"))
    (prop q "genre")
    (prop q "author")
    (if strict_ne (prop q "inStock") VUndefined
     then VBool (strict_eq (prop q "inStock") (VStr "true"))
     else VUndefined).

Definition get_books (q : obj) : M response :=
  await result := Book.findAll (list_options q) in
  ret (Response 200
         (success [("data", JArr (JRec <$> result.1)); ("pagination", JRec result.2)])).

(** [GET /api/books/search] *)
Definition get_search (q : obj) : M response :=
  await books := Book.search (prop q "q") in
  ret (Response 200
         (success [("count", JVal (VNum (Z.of_nat (length books))));
                   ("data", JArr (JRec <$> books))])).

Definition not_found_message (id : Z) : string :=
  "Книга с ID " +:+ pretty id +:+ " не найдена".


(** The object literal [{title, author, ..., in_stock}] built from the
    destructured body. *)
Definition picked (body : obj) : obj :=
  list_to_map ((λ f, (f, prop body f)) <$> Book.fields).

Definition isbn_conflict (isbn : value) : M exn :=
  conflict "Книга с таким ISBN уже существует" (JRec {[ "isbn" := isbn ]}).

(** [POST /api/books] *)
Definition post_book (body : obj) : M response :=
  let isbn := prop body "isbn" in
  await _ :=
    (if truthy isbn then
       await existingBook := Book.findByIsbn isbn in
       match existingBook with
       | Some _ => raise (isbn_conflict isbn)
       | None => ret tt
       end
     else ret tt) in
  await newBook := Book.create (picked body) in
  ret (Response 201
         (success [("message", JVal (VStr "Книга успешно создана"));
                   ("data", row_json newBook)])).

(** [PUT /api/books/:id] *)
Definition put_book (id : Z) (body : obj) : M response :=
  await book := Book.findById (VNum id) in
  match book with
  | None => raise (notFound (not_found_message id))
  | Some b =>
      await _ :=
        (if truthy (prop body "isbn") && strict_ne (prop body "isbn") (prop b "isbn") then
           await existingBook := Book.findByIsbn (prop body "isbn") in
           match existingBook with
           | Some _ => raise (isbn_conflict (prop body "isbn"))
           | None => ret tt
           end
         else ret tt) in
      await updatedBook := Book.update (VNum id) body in
      ret (Response 200
             (success [("message", JVal (VStr "Книга успешно обновлена"));
                       ("data", row_json updatedBook)]))
  end.

(** [PATCH /api/books/:id] *)
Definition patch_book (id : Z) (body : obj) : M response :=
  await book := Book.findById (VNum id) in
  match book with
  | None => raise (notFound (not_found_message id))
  | Some b =>
      await _ :=
        (if truthy (prop body "isbn") && strict_ne (prop body "isbn") (prop b "isbn") then
           await existingBook := Book.findByIsbn (prop body "isbn") in
           match existingBook with
           | Some _ => raise (isbn_conflict (prop body "isbn"))
           | None => ret tt
           end
         else ret tt) in
      await updatedBook := Book.update (VNum id) body in
      ret (Response 200
             (success [("message", JVal (VStr "Книга успешно обновлена"));
                       ("data", row_json updatedBook)]))
  end.


End Routes.

(** ** The rows of [database.sql], used for the concrete instances *)

Module Sample.

Definition book (id : Z) (title author isbn : string) (year : Z) (genre : string)
    (pages : Z) (description : string) (price : Z) (in_stock : bool) (stamp : Z) : obj :=
  list_to_map
    [("id", VNum id); ("title", VStr title); ("author", VStr author);
     ("isbn", VStr isbn); ("publication_year", VNum year); ("genre", VStr genre);
     ("pages", VNum pages); ("description", VStr description); ("price", VNum price);
     ("in_stock", VBool in_stock); ("created_at", VNum stamp); ("updated_at", VNum stamp)].

Definition war_and_peace : obj :=
  book 1 "Война и мир" "Лев Толстой" "978-5-17-090000-1" 1869 "Роман" 1225
    "Роман-эпопея, описывающий русское общество в эпоху войн против Наполеона"
    799 true 1000.

Definition crime_and_punishment : obj :=
  book 2 "Преступление и наказание" "Фёдор Достоевский" "978-5-17-090000-2" 1866
    "Роман" 608 "Психологический роман о студенте Раскольникове" 499 true 1000.

Definition nineteen_eighty_four : obj :=
  book 4 "1984" "Джордж Оруэлл" "978-5-17-090000-4" 1949 "Антиутопия" 320
    "Роман-антиутопия о тоталитарном обществе" 399 false 1000.

(** The table after the seed script, some time later. *)
Definition seeded : store :=
  Store [war_and_peace; crime_and_punishment; nineteen_eighty_four] 6 2000.

End Sample.

(** * Vocabulary of the statements *)

Import Routes.

(** The first row of the table that holds [v] in column [col]. *)
Definition first_with (col : string) (v : value) (t : list obj) : option obj :=
  List.find (λ r, bool_decide (prop r col = v)) t.

(** The non-null values of a column, row by row. *)
Definition keys (col : string) (t : list obj) : list value :=
  List.filter (λ v, negb (is_null v)) ((λ r, prop r col) <$> t).

(** [PRIMARY KEY (id)] and [UNIQUE (isbn)]. *)
Definition unique_on (col : string) (t : list obj) : Prop := NoDup (keys col t).

Definition ids (t : list obj) : list value := (λ r, prop r "id") <$> t.

(** The answer of the uniqueness pre-check. *)
Definition isbn_refused (isbn : value) (st : store) : response :=
  Response 409
    (failure "Книга с таким ISBN уже существует" (JRec {[ "isbn" := isbn ]}) (clock st)).

Definition taken_isbn_request : obj :=
  {[ "title" := VStr "Идиот"; "author" := VStr "Фёдор Достоевский";
     "isbn" := VStr " 978-5-17-090000-2 " ]}.

(** The mutable fields the input gives a value other than [undefined]. *)
Definition present (bookData : obj) : list string :=
  List.filter (λ f, strict_ne (prop bookData f) VUndefined) Book.fields.

(** The new version of a row: the assignments, then the trigger. *)
Definition rewritten (params : list value) (sets : list (string * nat)) (now : Z)
    (r : obj) : obj :=
  <["updated_at" := VNum now]> (assign params sets r).

(** The statement [update] sends for an input with present fields. *)
Definition update_sets (bookData : obj) : list (string * nat) :=
  zip (present bookData) (seq 1 (length (present bookData))).
Definition update_params (id : Z) (bookData : obj) : list value :=
  (prop bookData <$> present bookData) ++ [VNum id].
Definition update_where (bookData : obj) : list cond :=
  [Equals "id" (S (length (present bookData)))].

(** The row [update] returns after a write: the loaded row rewritten. *)
Definition updated (id : Z) (bookData : obj) (now : Z) (r : obj) : obj :=
  rewritten (update_params id bookData) (update_sets bookData) now r.

(** The body of a successful update response. *)
Definition update_ok (r : obj) : response :=
  Response 200
    (success [("message", JVal (VStr "Книга успешно обновлена")); ("data", JRec r)]).


(** The nine columns a client may write. *)
Definition mutable_columns : list string :=
  ["title"; "author"; "isbn"; "publication_year"; "genre"; "pages"; "description";
   "price"; "in_stock"].

(** Row [r'] is row [r] after a partial update with [bookData] at time
    [now]: a mutable column whose field is present takes the field's
    value, [updated_at] takes [now], every other column is as in [r]. *)
Definition patched (bookData : obj) (now : Z) (r r' : obj) : Prop :=
  ∀ c : string,
    r' !! c
    = if bool_decide (c ∈ mutable_columns ∧ prop bookData c ≠ VUndefined)
      then Some (prop bookData c)
      else if bool_decide (c = "updated_at") then Some (VNum now) else r !! c.

(** Store [st'] is store [st] after that update of the rows with id [id]:
    those rows are patched in place, the others are as they were. *)
Definition table_patched (id : Z) (bookData : obj) (st st' : store) : Prop :=
  Forall2 (λ r r', if bool_decide (prop r "id" = VNum id)
                   then patched bookData (clock st) r r' else r' = r)
          (books st) (books st')
  ∧ books_id_seq st' = books_id_seq st
  ∧ clock st' = clock st.

(** What the table stores for field [f] of a new book. *)
Definition inserted (f : string) (v : value) : value :=
  match v with
  | VUndefined => if bool_decide (f = "in_stock") then VBool true else VNull
  | _ => v
  end.





(** The rows a successful write leaves. *)
Definition rows_after (id : Z) (bookData : obj) (now : Z) (t : list obj) : list obj :=
  (λ r, if bool_decide (prop r "id" = VNum id) then updated id bookData now r else r) <$> t.



(** Book 4 after its price is set to 450 at time 2000. *)
Definition repriced : obj :=
  <["updated_at" := VNum 2000]> (<["price" := VNum 450]> Sample.nineteen_eighty_four).

(** The rows the filters of [o] keep. *)
Definition kept (o : Book.options) (t : list obj) : list obj :=
  List.filter (selected (Book.filters o).1.2 (Book.filters o).1.1) t.

(** The direction [findAll] sorts in for a [sortOrder] string. *)
Definition direction_of (s : string) : direction :=
  if String.eqb (toUpperCase s) "ASC" then ASC else DESC.




(** [term] occurs in [text], letter case apart. *)
Fixpoint occurs (p s : string) : bool :=
  String.prefix p s
  || match s with EmptyString => false | String _ s' => occurs p s' end.

Definition contains_ci (term : string) (v : value) : bool :=
  match v with
  | VStr text => occurs (toLowerCase term) (toLowerCase text)
  | _ => false
  end.

(** The books that the claim lets a search for [term] return. *)
Definition mentions (term : string) (r : obj) : bool :=
  contains_ci term (prop r "title") || contains_ci term (prop r "author")
  || contains_ci term (prop r "description").

(** ** Vocabulary of the further properties *)



(** A book that is not in the sample table, and its row once created. *)
Definition orwell : obj :=
  {[ "title" := VStr "Animal Farm"; "author" := VStr "George Orwell";
     "isbn" := VStr "978-0-452-28424-1" ]}.

Definition orwell_row : obj :=
  <["title" := VStr "Animal Farm"]>
    (<["author" := VStr "George Orwell"]>
       (<["isbn" := VStr "978-0-452-28424-1"]> (default_row 6 2000))).

(** Text of the ASCII range: its length in bytes is the length the
    platform counts. *)
Definition is_ascii (s : string) : bool := all_chars (λ c, (N_of_ascii c <? 128)%N) s.


(** The answer to a successful create. *)
Definition created (r : obj) : response :=
  Response 201
    (JObj [("success", JVal (VBool true)); ("message", JVal (VStr "Книга успешно создана"));
           ("data", JRec r)]).

(** * Properties *)

(** ** Lookups by key *)

Lemma filter_head {A} (p : A → bool) (l : list A) :
  List.filter p l !! 0%nat = List.find p l.
Proof.
  induction l as [|x l IH]; simpl; [done|].
  destruct (p x); simpl; auto.
Qed.

Lemma bound_one (v : value) : is_null v = false → bound [v] 1 = v.
Proof. by destruct v. Qed.

(** [WHERE col = $1] with a non-null parameter keeps the rows holding it. *)
Lemma selected_equals (col : string) (v : value) (r : obj) :
  is_null v = false →
  selected [v] [Equals col 1] r = bool_decide (prop r col = v).
Proof.
  intros Hv. unfold selected; simpl. rewrite (bound_one v Hv), Hv, orb_false_r.
  destruct (is_null (prop r col)) eqn:Hn.
  - rewrite andb_true_r. rewrite !bool_decide_eq_false_2; [done| |done].
    intros E. rewrite E in Hn. congruence.
  - rewrite andb_true_r. unfold strict_eq.
    destruct (decide (prop r col = v)) as [E|E].
    + rewrite (bool_decide_eq_true_2 _ E). by rewrite bool_decide_eq_true_2.
    + rewrite (bool_decide_eq_false_2 _ E).
      rewrite bool_decide_eq_false_2; [done|]. by intros [=].
Qed.

Lemma select_by_key (col : string) (v : value) (st : store) :
  is_null v = false →
  query (Select [Equals col 1] None None) [v] st
  = (Ok (let l := List.filter (λ r, bool_decide (prop r col = v)) (books st) in
         QResult l (length l)), st).
Proof.
  intros Hv. unfold query. simpl.
  erewrite List.filter_ext; [reflexivity|].
  intros r. by apply selected_equals.
Qed.

Lemma findById_spec (id : Z) (st : store) :
  Book.findById (VNum id) st = (Ok (first_with "id" (VNum id) (books st)), st).
Proof.
  unfold Book.findById, bind. rewrite select_by_key by done.
  unfold ret, Book.first_row; simpl. by rewrite filter_head.
Qed.

Lemma findByIsbn_spec (v : value) (st : store) :
  is_null v = false →
  Book.findByIsbn v st = (Ok (first_with "isbn" v (books st)), st).
Proof.
  intros Hv. unfold Book.findByIsbn, bind. rewrite select_by_key by done.
  unfold ret, Book.first_row; simpl. by rewrite filter_head.
Qed.

Lemma first_with_Some (col : string) (v : value) (t : list obj) (r : obj) :
  first_with col v t = Some r → r ∈ t ∧ prop r col = v.
Proof.
  unfold first_with. intros H. apply List.find_some in H as [Hin Hp].
  split; [by apply list_elem_of_In|]. by apply bool_decide_eq_true in Hp.
Qed.

Lemma first_with_holder (col : string) (v : value) (t : list obj) (r : obj) :
  r ∈ t → prop r col = v → is_Some (first_with col v t).
Proof.
  intros Hin Hv. unfold first_with.
  destruct (List.find _ t) eqn:E; [eauto|].
  apply list_elem_of_In in Hin.
  pose proof (List.find_none _ _ E r Hin) as Hf; simpl in Hf.
  by rewrite bool_decide_eq_true_2 in Hf.
Qed.

(** ** What validation guarantees about [isbn] *)

Lemma prop_insert_eq (o : obj) (k : string) (v : value) : prop (<[k := v]> o) k = v.
Proof. unfold prop. by rewrite lookup_insert_eq. Qed.

Lemma prop_insert_ne (o : obj) (k k' : string) (v : value) :
  k ≠ k' → prop (<[k := v]> o) k' = prop o k'.
Proof. intros. unfold prop. by rewrite lookup_insert_ne. Qed.

(** A body that passed the [isbn] chain carries no isbn, or a string of 10
    to 20 characters among digits, hyphen and X. *)
Lemma isbn_chain_passed (raw body : obj) :
  run_chain isbnValidation raw = (body, []) →
  is_null (prop body "isbn") = true
  ∨ ∃ s, prop body "isbn" = VStr s
         ∧ isLength 10 (Some 20%nat) s = true ∧ matches_isbn s = true.
Proof.
  unfold run_chain. simpl c_field. simpl c_steps.
  destruct (skipped isbnValidation (prop raw "isbn")) eqn:Hs.
  - intros [= <-]. left. by destruct (prop raw "isbn").
  - cbn [run_steps]. change (toString (VStr ?x)) with x.
    set (s := trim (toString (prop raw "isbn"))).
    destruct (isLength 10 (Some 20%nat) s) eqn:Hl;
      destruct (matches_isbn s) eqn:Hm; intros H; try discriminate H.
    injection H as <-. right. exists s.
    split; [|done].
    case_bool_decide as E; [by rewrite <- E|]. apply prop_insert_eq.
Qed.

Lemma isLength_nonempty (n : nat) (m : option nat) (s : string) :
  isLength (S n) m s = true → s ≠ "".
Proof. intros H ->. by destruct m. Qed.

(** Hence the handlers' test [if (isbn)] succeeds whenever an isbn is given. *)
Lemma isbn_chain_truthy (raw body : obj) :
  run_chain isbnValidation raw = (body, []) →
  is_null (prop body "isbn") = false →
  truthy (prop body "isbn") = true.
Proof.
  intros Hrun Hnn. destruct (isbn_chain_passed raw body Hrun) as [Hn|(s & -> & Hl & _)].
  - congruence.
  - simpl. apply isLength_nonempty in Hl.
    destruct (String.eqb_spec s ""); [done|done].
Qed.

(** ** Invariants of the schema *)

Lemma elem_of_keys (col : string) (t : list obj) (r : obj) :
  r ∈ t → is_null (prop r col) = false → prop r col ∈ keys col t.
Proof.
  intros Hin Hn. unfold keys. apply list_elem_of_In, List.filter_In. split.
  - apply list_elem_of_In, list_elem_of_fmap. eauto.
  - by rewrite Hn.
Qed.

Lemma unique_on_same (col : string) (t : list obj) (r1 r2 : obj) :
  unique_on col t → r1 ∈ t → r2 ∈ t →
  prop r1 col = prop r2 col → is_null (prop r1 col) = false → r1 = r2.
Proof.
  unfold unique_on. induction t as [|x t IH]; intros Hnd H1 H2 Heq Hn.
  - by apply elem_of_nil in H1.
  - assert (Hn2 : is_null (prop r2 col) = false) by (by rewrite <- Heq).
    unfold keys in Hnd. rewrite fmap_cons in Hnd. simpl in Hnd.
    apply elem_of_cons in H1 as [->|H1]; apply elem_of_cons in H2 as [->|H2]; auto.
    + rewrite Hn in Hnd. simpl in Hnd. apply NoDup_cons in Hnd as [Hx _].
      exfalso. apply Hx. rewrite Heq. by apply elem_of_keys.
    + rewrite Hn2 in Hnd. simpl in Hnd. apply NoDup_cons in Hnd as [Hx _].
      exfalso. apply Hx. rewrite <- Heq. by apply elem_of_keys.
    + apply IH; auto. destruct (negb (is_null (prop x col))); [|done].
      by apply NoDup_cons in Hnd as [_ ?].
Qed.

(** ** C1: a taken isbn is refused before any write *)

Lemma serve_conflict (production : bool) (isbn : value) (st : store) :
  serve production (raise (isbn_conflict isbn)) st = (isbn_refused isbn st, st).
Proof. reflexivity. Qed.

Lemma precheck_hit (isbn : value) (st : store) (holder : obj) (k : M response) :
  is_null isbn = false → holder ∈ books st → prop holder "isbn" = isbn →
  (await _ :=
     (await existingBook := Book.findByIsbn isbn in
      match existingBook with
      | Some _ => raise (isbn_conflict isbn)
      | None => ret tt
      end) in k) st
  = raise (isbn_conflict isbn) st.
Proof.
  intros Hn Hin Hh. unfold bind at 1 2. rewrite findByIsbn_spec by done.
  destruct (first_with_holder "isbn" isbn (books st) holder Hin Hh) as [x ->].
  reflexivity.
Qed.

Lemma update_precheck (production : bool) (st : store) (id : Z) (body other : obj) :
  truthy (prop body "isbn") = true →
  is_null (prop body "isbn") = false →
  other ∈ books st → prop other "isbn" = prop body "isbn" →
  unique_on "isbn" (books st) → VNum id ∈ ids (books st) → prop other "id" ≠ VNum id →
  serve production (put_book id body) st = (isbn_refused (prop body "isbn") st, st).
Proof.
  intros Ht Hn Hin Hh Hu Hid Hne.
  apply list_elem_of_fmap in Hid as (b0 & Hb0 & Hb0in).
  destruct (first_with_holder "id" (VNum id) (books st) b0 Hb0in (eq_sym Hb0)) as [b Hb].
  destruct (first_with_Some _ _ _ _ Hb) as [Hbin Hbid].
  unfold serve, put_book. unfold bind at 1. rewrite findById_spec, Hb, Ht.
  assert (Hdiff : strict_ne (prop body "isbn") (prop b "isbn") = true).
  { unfold strict_ne, strict_eq. apply negb_true_iff, bool_decide_eq_false_2.
    intros E. apply Hne.
    rewrite (unique_on_same "isbn" (books st) other b Hu Hin Hbin); [done|congruence|].
    by rewrite Hh. }
  rewrite Hdiff. simpl andb. cbv iota.
  by rewrite (precheck_hit _ st other).
Qed.

(** C1.  A create or update request that passed validation and supplies an
    isbn which another book already holds is answered 409 by the
    uniqueness pre-check, and the store is left exactly as it was: no
    insert or update statement has run (an attempted insert would have
    advanced the id sequence, and a store-level rejection would carry the
    store's own message).  For an update the target id exists and the
    holder is a different book; the table satisfies [UNIQUE (isbn)]. *)
Theorem taken_isbn_is_refused (production : bool) (st : store) (raw body other : obj) :
  run_chain isbnValidation raw = (body, []) →
  is_null (prop body "isbn") = false →
  other ∈ books st →
  prop other "isbn" = prop body "isbn" →
  let refused := (isbn_refused (prop body "isbn") st, st) in
  serve production (post_book body) st = refused
  ∧ ∀ id : Z,
      unique_on "isbn" (books st) → VNum id ∈ ids (books st) → prop other "id" ≠ VNum id →
      serve production (put_book id body) st = refused
      ∧ serve production (patch_book id body) st = refused.
Proof.
  intros Hv Hn Hin Hh refused.
  pose proof (isbn_chain_truthy raw body Hv Hn) as Ht.
  split.
  - unfold serve, post_book. rewrite Ht.
    by rewrite (precheck_hit _ st other).
  - intros id Hu Hid Hne.
    assert (Hput := update_precheck production st id body other Ht Hn Hin Hh Hu Hid Hne).
    split; [exact Hput|]. exact Hput.
Qed.

Lemma taken_isbn_is_refused_witness :
  let body := <["isbn" := VStr "978-5-17-090000-2"]> taken_isbn_request in
  let refused := (isbn_refused (VStr "978-5-17-090000-2") Sample.seeded, Sample.seeded) in
  serve false (post_book body) Sample.seeded = refused
  ∧ serve false (put_book 1 body) Sample.seeded = refused
  ∧ serve false (patch_book 1 body) Sample.seeded = refused.
Proof.
  intros body refused.
  destruct (taken_isbn_is_refused false Sample.seeded taken_isbn_request body
              Sample.crime_and_punishment) as [Hpost Hupd].
  - vm_compute. reflexivity.
  - vm_compute. reflexivity.
  - apply list_elem_of_further, list_elem_of_here.
  - vm_compute. reflexivity.
  - split; [exact Hpost|]. apply (Hupd 1).
    + apply (bool_decide_unpack _). vm_compute. exact I.
    + apply (bool_decide_unpack _). vm_compute. exact I.
    + apply (bool_decide_unpack _). vm_compute. exact I.
Defined.

(** ** The SET clause of [update] *)

Lemma set_loop (bookData : obj) (fs : list string) updates params (i : nat) :
  foldl (Book.set_step bookData) (updates, params, i) fs
  = let fs' := List.filter (λ f, strict_ne (prop bookData f) VUndefined) fs in
    (updates ++ zip fs' (seq i (length fs')),
     params ++ (prop bookData <$> fs'),
     (i + length fs')%nat).
Proof.
  revert updates params i. induction fs as [|f fs IH]; intros updates params i.
  - simpl. by rewrite !app_nil_r, Nat.add_0_r.
  - change (foldl (Book.set_step bookData) (updates, params, i) (f :: fs))
      with (foldl (Book.set_step bookData) (Book.set_step bookData (updates, params, i) f) fs).
    unfold Book.set_step at 2.
    simpl List.filter. destruct (strict_ne (prop bookData f) VUndefined).
    + rewrite IH. cbv zeta. simpl length. simpl seq. simpl zip. rewrite fmap_cons.
      rewrite <- !app_assoc. simpl. by rewrite Nat.add_succ_r.
    + by rewrite IH.
Qed.

Lemma set_clause_spec (bookData : obj) :
  Book.set_clause bookData
  = (zip (present bookData) (seq 1 (length (present bookData))),
     prop bookData <$> present bookData,
     S (length (present bookData))).
Proof.
  unfold Book.set_clause. by rewrite set_loop.
Qed.

Lemma present_spec (bookData : obj) (f : string) :
  f ∈ present bookData ↔ f ∈ Book.fields ∧ prop bookData f ≠ VUndefined.
Proof.
  unfold present. rewrite list_elem_of_In, List.filter_In, <- list_elem_of_In.
  unfold strict_ne, strict_eq. rewrite negb_true_iff, bool_decide_eq_false. tauto.
Qed.

Lemma present_NoDup (bookData : obj) : NoDup (present bookData).
Proof.
  unfold present. apply NoDup_ListNoDup, List.NoDup_filter, NoDup_ListNoDup.
  apply (bool_decide_unpack _). vm_compute. exact I.
Qed.

(** The columns named in the SET clause are the present fields. *)
Lemma set_clause_columns (bookData : obj) :
  (Book.set_clause bookData).1.1.*1 = present bookData.
Proof.
  rewrite set_clause_spec. simpl. apply fst_zip. by rewrite length_seq.
Qed.

(** ** What an UPDATE statement does to a row *)

Lemma assign_other (params : list value) (sets : list (string * nat)) (r : obj) (c : string) :
  c ∉ sets.*1 → assign params sets r !! c = r !! c.
Proof.
  unfold assign. revert r. induction sets as [|[c0 i0] sets IH]; intros r Hc; [done|].
  rewrite fmap_cons in Hc. apply not_elem_of_cons in Hc as [Hne Hc].
  simpl. rewrite IH by done. by rewrite lookup_insert_ne.
Qed.

Lemma assign_set (params : list value) (sets : list (string * nat)) (r : obj)
    (c : string) (i : nat) :
  NoDup sets.*1 → (c, i) ∈ sets → assign params sets r !! c = Some (bound params i).
Proof.
  unfold assign. revert r. induction sets as [|[c0 i0] sets IH]; intros r Hnd Hin.
  - by apply elem_of_nil in Hin.
  - rewrite fmap_cons in Hnd. apply NoDup_cons in Hnd as [Hc0 Hnd].
    apply elem_of_cons in Hin as [[= -> ->]|Hin]; simpl.
    + pose proof (assign_other params sets (<[c0 := bound params i0]> r) c0 Hc0) as H.
      unfold assign in H. rewrite H. by rewrite lookup_insert_eq.
    + by apply IH.
Qed.

Lemma touched_rewrite (params : list value) (sets : list (string * nat))
    (w : list cond) (now : Z) (t : list obj) :
  touched (rewrite_rows params sets w now t)
  = rewritten params sets now <$> List.filter (selected params w) t.
Proof.
  unfold touched, rewrite_rows. induction t as [|r t IH]; [done|].
  rewrite fmap_cons. simpl List.filter.
  destruct (selected params w r); simpl; [f_equal|]; exact IH.
Qed.

(** The three outcomes of an UPDATE whose WHERE has no pattern. *)
Lemma query_update (params : list value) (sets : list (string * nat))
    (col : string) (i : nat) (st : store) :
  let w := [Equals col i] in
  let out := rewritten params sets (clock st) <$> List.filter (selected params w) (books st) in
  let t' := rewrite_rows params sets w (clock st) (books st) in
  query (Update sets w) params st
  = match list_find (λ r, is_Some (null_violation r)) out with
    | Some (_, r) => (Throw (not_null_violation (default "" (null_violation r))), st)
    | None =>
        match dup_isbn [] t' with
        | Some v => (Throw (unique_violation v), st)
        | None => (Ok (QResult out (length out)),
                   Store (t'.*2) (books_id_seq st) (clock st))
        end
    end.
Proof. intros w out t'. unfold query. simpl negb. cbv iota. by rewrite touched_rewrite. Qed.

Lemma selected_equals_at (params : list value) (col : string) (i : nat) (v : value) (r : obj) :
  bound params i = v → is_null v = false →
  selected params [Equals col i] r = bool_decide (prop r col = v).
Proof.
  intros Hb Hv. rewrite <- (selected_equals col v r Hv).
  unfold selected; simpl. by rewrite Hb, (bound_one v Hv).
Qed.

(** ** [Book.update], case by case *)

Lemma update_sets_columns (bookData : obj) : (update_sets bookData).*1 = present bookData.
Proof. unfold update_sets. apply fst_zip. by rewrite length_seq. Qed.

Lemma update_sets_bound (id : Z) (bookData : obj) (c : string) (i : nat) :
  (c, i) ∈ update_sets bookData →
  bound (update_params id bookData) i = prop bookData c ∧ prop bookData c ≠ VUndefined.
Proof.
  unfold update_sets, update_params. intros Hin.
  apply list_elem_of_lookup in Hin as [k Hk].
  apply lookup_zip_with_Some in Hk as (c' & i' & [= <- <-] & Hc & Hi).
  apply lookup_seq in Hi as [-> Hlt].
  assert (Hp : prop bookData c ≠ VUndefined).
  { apply (present_spec bookData c). by eapply list_elem_of_lookup_2. }
  split; [|done]. unfold bound. simpl. rewrite Nat.sub_0_r.
  rewrite lookup_app_l by (by rewrite length_fmap).
  rewrite list_lookup_fmap, Hc. simpl. by destruct (prop bookData c).
Qed.

Lemma update_where_bound (id : Z) (bookData : obj) :
  bound (update_params id bookData) (S (length (present bookData))) = VNum id.
Proof.
  unfold bound, update_params. simpl. rewrite Nat.sub_0_r.
  rewrite lookup_app_r by (by rewrite length_fmap).
  by rewrite length_fmap, Nat.sub_diag.
Qed.

Lemma updated_present (id : Z) (bookData : obj) (now : Z) (r : obj) (c : string) :
  c ∈ present bookData → updated id bookData now r !! c = Some (prop bookData c).
Proof.
  intros Hc. unfold updated, rewritten.
  assert (Hne : "updated_at" ≠ c).
  { intros <-. apply present_spec in Hc as [Hf _]. revert Hf.
    apply (bool_decide_unpack _). vm_compute. exact I. }
  rewrite lookup_insert_ne by done.
  assert (Hin : ∃ i, (c, i) ∈ update_sets bookData).
  { rewrite <- update_sets_columns in Hc. apply list_elem_of_fmap in Hc as ([c' i] & -> & Hin).
    eauto. }
  destruct Hin as [i Hin].
  rewrite (assign_set _ _ _ c i); [|by rewrite update_sets_columns; apply present_NoDup|done].
  by destruct (update_sets_bound id bookData c i Hin) as [-> _].
Qed.

Lemma updated_absent (id : Z) (bookData : obj) (now : Z) (r : obj) (c : string) :
  c ∉ present bookData → c ≠ "updated_at" → updated id bookData now r !! c = r !! c.
Proof.
  intros Hc Hne. unfold updated, rewritten.
  rewrite lookup_insert_ne by done.
  apply assign_other. by rewrite update_sets_columns.
Qed.

Lemma updated_stamp (id : Z) (bookData : obj) (now : Z) (r : obj) :
  updated id bookData now r !! "updated_at" = Some (VNum now).
Proof. unfold updated, rewritten. by rewrite lookup_insert_eq. Qed.

Lemma update_absent (id : Z) (bookData : obj) (st : store) :
  first_with "id" (VNum id) (books st) = None →
  Book.update (VNum id) bookData st = (Ok None, st).
Proof. intros H. unfold Book.update, bind. by rewrite findById_spec, H. Qed.

Lemma update_noop (id : Z) (bookData : obj) (st : store) (b : obj) :
  first_with "id" (VNum id) (books st) = Some b →
  present bookData = [] →
  Book.update (VNum id) bookData st = (Ok (Some b), st).
Proof.
  intros H Hp. unfold Book.update. unfold bind at 1. rewrite findById_spec, H.
  rewrite set_clause_spec, Hp. reflexivity.
Qed.

Lemma update_write (id : Z) (bookData : obj) (st : store) (b : obj) :
  first_with "id" (VNum id) (books st) = Some b →
  present bookData ≠ [] →
  let hit := List.filter (λ r, bool_decide (prop r "id" = VNum id)) (books st) in
  let t' := rewrite_rows (update_params id bookData) (update_sets bookData)
              (update_where bookData) (clock st) (books st) in
  Book.update (VNum id) bookData st
  = match list_find (λ r, is_Some (null_violation r))
            (updated id bookData (clock st) <$> hit) with
    | Some (_, r) => (Throw (not_null_violation (default "" (null_violation r))), st)
    | None =>
        match dup_isbn [] t' with
        | Some v => (Throw (unique_violation v), st)
        | None => (Ok (Some (updated id bookData (clock st) b)),
                   Store (t'.*2) (books_id_seq st) (clock st))
        end
    end.
Proof.
  intros H Hp hit t'. unfold Book.update. unfold bind at 1. rewrite findById_spec, H.
  rewrite set_clause_spec.
  destruct (present bookData) as [|f fs] eqn:E; [done|]. rewrite <- E.
  assert (Hlen : (length (zip (present bookData) (seq 1 (length (present bookData)))) =? 0)%nat
                 = false).
  { rewrite E. reflexivity. }
  rewrite Hlen. unfold bind.
  fold (update_sets bookData). fold (update_params id bookData).
  fold (update_where bookData). unfold update_where.
  rewrite query_update.
  assert (Hsel : List.filter (selected (update_params id bookData)
                                [Equals "id" (S (length (present bookData)))]) (books st) = hit).
  { apply List.filter_ext. intros r.
    apply selected_equals_at; [apply update_where_bound|done]. }
  rewrite Hsel. fold (updated id bookData (clock st)).
  fold (update_where bookData). fold t'.
  destruct (list_find _ _) as [[? ?]|]; [done|].
  destruct (dup_isbn [] t'); [done|].
  unfold ret, Book.first_row. simpl rows.
  unfold hit. rewrite list_lookup_fmap, filter_head. fold (first_with "id" (VNum id) (books st)).
  by rewrite H.
Qed.

(** ** C5: an update without recognised fields *)

Lemma present_nil (bookData : obj) :
  (∀ f, f ∈ Book.fields → prop bookData f = VUndefined) → present bookData = [].
Proof.
  intros H. destruct (present bookData) as [|f fs] eqn:E; [done|].
  assert (Hf : f ∈ present bookData) by (rewrite E; apply list_elem_of_here).
  apply present_spec in Hf as [Hin Hne]. by specialize (H f Hin).
Qed.

Lemma existing_id (id : Z) (t : list obj) :
  VNum id ∈ ids t → ∃ b, first_with "id" (VNum id) t = Some b.
Proof.
  intros Hid. apply list_elem_of_fmap in Hid as (b0 & Hb0 & Hin).
  by destruct (first_with_holder "id" (VNum id) t b0 Hin (eq_sym Hb0)) as [b Hb]; eauto.
Qed.

(** C5.  For an id that exists, an update or patch request whose body has
    none of the nine fields is answered 200 with the row as it was loaded;
    [Book.update] returns that row and the store is left untouched. *)
Theorem empty_update_is_noop (production : bool) (st : store) (id : Z) (body : obj) :
  VNum id ∈ ids (books st) →
  (∀ f, f ∈ Book.fields → prop body f = VUndefined) →
  ∃ b, first_with "id" (VNum id) (books st) = Some b
       ∧ Book.update (VNum id) body st = (Ok (Some b), st)
       ∧ serve production (put_book id body) st = (update_ok b, st)
       ∧ serve production (patch_book id body) st = (update_ok b, st).
Proof.
  intros Hid Hnone. destruct (existing_id id (books st) Hid) as [b Hb].
  pose proof (update_noop id body st b Hb (present_nil body Hnone)) as Hupd.
  assert (Hisbn : prop body "isbn" = VUndefined).
  { apply Hnone. apply (bool_decide_unpack _). vm_compute. exact I. }
  assert (Hput : serve production (put_book id body) st = (update_ok b, st)).
  { unfold serve, put_book. unfold bind at 1. rewrite findById_spec, Hb, Hisbn.
    simpl truthy. simpl andb. cbv iota. unfold bind, ret at 1. by rewrite Hupd. }
  exists b. repeat split; try done.
Qed.

Lemma empty_update_is_noop_witness :
  serve false (put_book 2 {[ "rating" := VNum 5 ]}) Sample.seeded
  = (update_ok Sample.crime_and_punishment, Sample.seeded).
Proof.
  destruct (empty_update_is_noop false Sample.seeded 2 {[ "rating" := VNum 5 ]})
    as (b & Hb & _ & Hput & _).
  - apply (bool_decide_unpack _). vm_compute. exact I.
  - intros f Hf. unfold prop. rewrite lookup_singleton_ne; [reflexivity|].
    intros <-. revert Hf. apply (bool_decide_unpack _). vm_compute. exact I.
  - rewrite Hput. f_equal. f_equal.
    assert (E : Some b = Some Sample.crime_and_punishment).
    { rewrite <- Hb. vm_compute. reflexivity. }
    injection E as ->. reflexivity.
Defined.

(** ** Rows that satisfy the schema *)





(** ** The table after an UPDATE *)

Lemma rewrite_rows_table (params : list value) (sets : list (string * nat))
    (w : list cond) (now : Z) (t : list obj) :
  (rewrite_rows params sets w now t).*2
  = (λ r, if selected params w r then rewritten params sets now r else r) <$> t.
Proof.
  unfold rewrite_rows. rewrite <- list_fmap_compose. apply list_fmap_ext.
  intros _ r _. simpl. by destruct (selected params w r).
Qed.

Lemma updated_patched (id : Z) (bookData : obj) (now : Z) (r : obj) :
  patched bookData now r (updated id bookData now r).
Proof.
  intros c. case_bool_decide as Hc.
  - apply updated_present. by apply present_spec.
  - case_bool_decide as Hu.
    + subst c. apply updated_stamp.
    + apply updated_absent; [|done]. intros Hin. by apply present_spec in Hin.
Qed.

Lemma update_table (id : Z) (bookData : obj) (st : store) :
  table_patched id bookData st
    (Store (rewrite_rows (update_params id bookData) (update_sets bookData)
              (update_where bookData) (clock st) (books st)).*2
           (books_id_seq st) (clock st)).
Proof.
  split; [|done]. simpl books. rewrite rewrite_rows_table.
  apply Forall2_fmap_r, Forall_Forall2_diag, Forall_forall. intros r _.
  unfold update_where, compose.
  rewrite (selected_equals_at _ "id" _ (VNum id) r (update_where_bound id bookData) eq_refl).
  case_bool_decide; [apply updated_patched|reflexivity].
Qed.

(** A successful update, with the table it leaves. *)
Lemma update_success (id : Z) (bookData : obj) (st st' : store) (b' : obj) :
  Book.update (VNum id) bookData st = (Ok (Some b'), st') →
  ∃ b, first_with "id" (VNum id) (books st) = Some b
       ∧ (present bookData = [] ∧ b' = b ∧ st' = st
          ∨ present bookData ≠ [] ∧ b' = updated id bookData (clock st) b
            ∧ table_patched id bookData st st').
Proof.
  intros Hupd.
  destruct (first_with "id" (VNum id) (books st)) as [b|] eqn:Hb.
  2:{ by rewrite (update_absent id bookData st Hb) in Hupd. }
  exists b. split; [done|].
  destruct (decide (present bookData = [])) as [Hp|Hp].
  - rewrite (update_noop id bookData st b Hb Hp) in Hupd.
    injection Hupd as <- <-. by left.
  - rewrite (update_write id bookData st b Hb Hp) in Hupd.
    destruct (list_find _ _) as [[? ?]|]; [done|].
    destruct (dup_isbn _ _); [done|]. injection Hupd as <- <-.
    right. split; [done|]. split; [done|]. apply update_table.
Qed.

(** ** When the store accepts an UPDATE *)






Lemma update_rows (id : Z) (bookData : obj) (st : store) :
  (rewrite_rows (update_params id bookData) (update_sets bookData)
     (update_where bookData) (clock st) (books st)).*2
  = rows_after id bookData (clock st) (books st).
Proof.
  rewrite rewrite_rows_table. apply list_fmap_ext. intros i r _. unfold update_where.
  by rewrite (selected_equals_at _ "id" _ (VNum id) r (update_where_bound id bookData) eq_refl).
Qed.

Lemma update_written (id : Z) (bookData : obj) (st st' : store) (b' : obj) :
  Book.update (VNum id) bookData st = (Ok (Some b'), st') →
  present bookData ≠ [] →
  ∃ b, first_with "id" (VNum id) (books st) = Some b
       ∧ b' = updated id bookData (clock st) b
       ∧ st' = Store (rows_after id bookData (clock st) (books st))
                     (books_id_seq st) (clock st).
Proof.
  intros Hupd Hp.
  destruct (first_with "id" (VNum id) (books st)) as [b|] eqn:Hb.
  2:{ by rewrite (update_absent id bookData st Hb) in Hupd. }
  exists b. split; [done|].
  rewrite (update_write id bookData st b Hb Hp) in Hupd.
  destruct (list_find _ _) as [[? ?]|]; [done|].
  destruct (dup_isbn _ _); [done|]. injection Hupd as <- <-.
  by rewrite update_rows.
Qed.



(** ** C6: PUT and PATCH *)





(** ** C7: what update and create leave alone *)

Lemma set_clause_names (bookData : obj) (c : string) :
  c ∈ (Book.set_clause bookData).1.1.*1
  ↔ c ∈ mutable_columns ∧ prop bookData c ≠ VUndefined.
Proof. rewrite set_clause_columns. apply present_spec. Qed.

Lemma set_clause_nil (bookData : obj) :
  (Book.set_clause bookData).1.1 = [] ↔ present bookData = [].
Proof.
  rewrite <- set_clause_columns. split; [by intros ->|].
  by destruct ((Book.set_clause bookData).1.1).
Qed.

Lemma patched_frame (bookData : obj) (now : Z) (r r' : obj) (c : string) :
  patched bookData now r r' →
  c ∉ (Book.set_clause bookData).1.1.*1 → c ≠ "updated_at" → r' !! c = r !! c.
Proof.
  intros Hp Hc Hu. rewrite (Hp c).
  rewrite bool_decide_eq_false_2 by (by rewrite <- set_clause_names).
  by rewrite bool_decide_eq_false_2.
Qed.

Lemma in_set_clause_mutable (bookData : obj) (c : string) :
  c ∉ mutable_columns → c ∉ (Book.set_clause bookData).1.1.*1.
Proof. intros Hc Hin. apply set_clause_names in Hin as [? _]. done. Qed.

Lemma insert_columns_fixed (params : list value) (id now : Z) (c : string) :
  c ∉ Book.fields →
  assign params (zip Book.fields (seq 1 (length Book.fields))) (default_row id now) !! c
  = default_row id now !! c.
Proof.
  intros Hc. apply assign_other. rewrite fst_zip; [done|]. by rewrite length_seq.
Qed.

Lemma insert_column_set (params : list value) (id now : Z) (c : string) (i : nat) :
  (c, i) ∈ zip Book.fields (seq 1 (length Book.fields)) →
  assign params (zip Book.fields (seq 1 (length Book.fields))) (default_row id now) !! c
  = Some (bound params i).
Proof.
  intros Hin. apply assign_set; [|done].
  rewrite fst_zip by (by rewrite length_seq). apply (bool_decide_unpack _). vm_compute. exact I.
Qed.

(** A successful [create]: the new row is appended, with the id of the
    sequence, the store's time, and the nine fields of the input. *)
Lemma create_success (input : obj) (s s' : store) (r : obj) :
  Book.create input s = (Ok (Some r), s') →
  books s' = books s ++ [r]
  ∧ books_id_seq s' = books_id_seq s + 1
  ∧ r !! "id" = Some (VNum (books_id_seq s))
  ∧ r !! "created_at" = Some (VNum (clock s))
  ∧ r !! "updated_at" = Some (VNum (clock s))
  ∧ ∀ f, f ∈ mutable_columns → r !! f = Some (inserted f (prop input f)).
Proof.
  unfold Book.create, bind, query.
  set (params := [_; _; _; _; _; _; _; _; _]).
  set (r0 := assign params _ _).
  destruct (null_violation r0); [done|].
  destruct (isbn_taken (books s) (prop r0 "isbn")); [done|].
  unfold ret, Book.first_row. cbn [rows lookup list_lookup].
  intros H. injection H as Hr Hs. subst r s'. cbn [books books_id_seq].
  split; [reflexivity|]. split; [reflexivity|].
  unfold r0.
  split; [rewrite insert_columns_fixed;
          [reflexivity|apply (bool_decide_unpack _); vm_compute; exact I]|].
  split; [rewrite insert_columns_fixed;
          [reflexivity|apply (bool_decide_unpack _); vm_compute; exact I]|].
  split; [rewrite insert_columns_fixed;
          [reflexivity|apply (bool_decide_unpack _); vm_compute; exact I]|].
  intros f Hf. unfold mutable_columns in Hf.
  repeat (apply elem_of_cons in Hf as [->|Hf];
    [match goal with
     | |- _ !! ?c = _ =>
         first
           [ rewrite (insert_column_set params _ _ c 1%nat) by (apply (bool_decide_unpack _); vm_compute; exact I)
           | rewrite (insert_column_set params _ _ c 2%nat) by (apply (bool_decide_unpack _); vm_compute; exact I)
           | rewrite (insert_column_set params _ _ c 3%nat) by (apply (bool_decide_unpack _); vm_compute; exact I)
           | rewrite (insert_column_set params _ _ c 4%nat) by (apply (bool_decide_unpack _); vm_compute; exact I)
           | rewrite (insert_column_set params _ _ c 5%nat) by (apply (bool_decide_unpack _); vm_compute; exact I)
           | rewrite (insert_column_set params _ _ c 6%nat) by (apply (bool_decide_unpack _); vm_compute; exact I)
           | rewrite (insert_column_set params _ _ c 7%nat) by (apply (bool_decide_unpack _); vm_compute; exact I)
           | rewrite (insert_column_set params _ _ c 8%nat) by (apply (bool_decide_unpack _); vm_compute; exact I)
           | rewrite (insert_column_set params _ _ c 9%nat) by (apply (bool_decide_unpack _); vm_compute; exact I) ]
     end;
     unfold params, bound, inserted; simpl;
     match goal with |- context [prop input ?k] => destruct (prop input k) end;
     reflexivity|]).
  by apply elem_of_nil in Hf.
Qed.

(** At the sample table, renaming book 1 changes [updated_at], a column that
    is neither in the input nor in the SET clause. *)
Lemma update_refreshes_updated_at :
  (Book.set_clause {[ "title" := VStr "Война и мир, том 1" ]}).1.1.*1 = ["title"]
  ∧ Book.update (VNum 1) {[ "title" := VStr "Война и мир, том 1" ]} Sample.seeded
    = (Ok (Some (<["updated_at" := VNum 2000]>
                   (<["title" := VStr "Война и мир, том 1"]> Sample.war_and_peace))),
       Store [<["updated_at" := VNum 2000]>
                (<["title" := VStr "Война и мир, том 1"]> Sample.war_and_peace);
              Sample.crime_and_punishment; Sample.nineteen_eighty_four] 6 2000)
  ∧ Sample.war_and_peace !! "updated_at" = Some (VNum 1000).
Proof.
  split; [vm_compute; reflexivity|]. split; vm_compute; reflexivity.
Qed.

(** C7, amended.  The SET clause of [update] names exactly the mutable
    fields that are present in the input.  After a successful update
    every row of the table has every column outside the SET clause as
    before ([id] and [created_at] among them), except [updated_at], which
    the table's trigger sets to the time of the statement in the rows it
    rewrites; the rows with the given id are patched in place and the
    returned row is the patched version of the loaded one.  A successful
    [create] appends one row whose id is the next of the sequence and
    whose [created_at] and [updated_at] are the store's time, whatever
    keys the input carries; its nine fields are those of the input. *)
Theorem update_and_create_frame (id : Z) (bookData : obj) :
  (∀ c, c ∈ (Book.set_clause bookData).1.1.*1
        ↔ c ∈ mutable_columns ∧ prop bookData c ≠ VUndefined)
  ∧ (∀ (st st' : store) (b' : obj),
       Book.update (VNum id) bookData st = (Ok (Some b'), st') →
       Forall2 (λ r r', ∀ c, c ∉ (Book.set_clause bookData).1.1.*1 →
                             c ≠ "updated_at" → r' !! c = r !! c)
               (books st) (books st')
       ∧ Forall2 (λ r r', r' !! "id" = r !! "id" ∧ r' !! "created_at" = r !! "created_at")
                 (books st) (books st')
       ∧ books_id_seq st' = books_id_seq st
       ∧ ∃ b, first_with "id" (VNum id) (books st) = Some b
              ∧ ((Book.set_clause bookData).1.1 = [] → b' = b ∧ st' = st)
              ∧ ((Book.set_clause bookData).1.1 ≠ [] →
                 patched bookData (clock st) b b' ∧ table_patched id bookData st st'))
  ∧ (∀ (input : obj) (s s' : store) (r : obj),
       Book.create input s = (Ok (Some r), s') →
       books s' = books s ++ [r]
       ∧ books_id_seq s' = books_id_seq s + 1
       ∧ r !! "id" = Some (VNum (books_id_seq s))
       ∧ r !! "created_at" = Some (VNum (clock s))
       ∧ r !! "updated_at" = Some (VNum (clock s))
       ∧ ∀ f, f ∈ mutable_columns → r !! f = Some (inserted f (prop input f))).
Proof.
  split; [apply set_clause_names|]. split; [|apply create_success].
  intros st st' b' Hupd.
  destruct (update_success id bookData st st' b' Hupd)
    as (b & Hb & [(Hp & -> & ->)|(Hp & -> & Htab)]).
  - split; [by apply Forall_Forall2_diag, Forall_forall|].
    split; [by apply Forall_Forall2_diag, Forall_forall|]. split; [done|].
    exists b. split; [done|]. split; [done|].
    intros Hne. exfalso. by apply Hne, set_clause_nil.
  - assert (Hframe : Forall2 (λ r r', ∀ c, c ∉ (Book.set_clause bookData).1.1.*1 →
                                        c ≠ "updated_at" → r' !! c = r !! c)
                             (books st) (books st')).
    { destruct Htab as [Hrows _]. eapply Forall2_impl; [exact Hrows|].
      intros r r' Hr c Hc Hu. simpl in Hr. case_bool_decide.
      - by eapply patched_frame.
      - by subst r'. }
    split; [exact Hframe|]. split.
    { eapply Forall2_impl; [exact Hframe|]. intros r r' Hr.
      split; (apply Hr; [apply in_set_clause_mutable;
                         apply (bool_decide_unpack _); vm_compute; exact I|done]). }
    split; [apply Htab|].
    exists b. split; [done|]. split.
    + intros Hnil. exfalso. by apply Hp, set_clause_nil.
    + intros _. split; [apply updated_patched|exact Htab].
Qed.

Lemma update_and_create_frame_witness :
  Forall2 (λ r r', r' !! "id" = r !! "id" ∧ r' !! "created_at" = r !! "created_at")
    [Sample.war_and_peace; Sample.crime_and_punishment; Sample.nineteen_eighty_four]
    [Sample.war_and_peace; Sample.crime_and_punishment; repriced].
Proof.
  destruct (update_and_create_frame 4 {[ "price" := VNum 450; "id" := VNum 99 ]})
    as (_ & Hupd & _).
  destruct (Hupd Sample.seeded
              (Store [Sample.war_and_peace; Sample.crime_and_punishment; repriced] 6 2000)
              repriced) as (_ & Hids & _).
  - vm_compute. reflexivity.
  - exact Hids.
Defined.

(** ** C8: store failures at the error-handling boundary *)

(** Two failures of the store that the handler has no case for: the pool
    gives up after [connectionTimeoutMillis] with an error that has no
    code, and an integer out of the column's range is reported as 22003.
    Both are answered 500. *)
Lemma unmapped_store_failures_get_500 :
  errorHandler true 7 (Exn "timeout exceeded when trying to connect"
                           VUndefined VUndefined None None)
  = Response 500
      (JObj [("success", JVal (VBool false));
             ("error", JVal (VStr "Внутренняя ошибка сервера"));
             ("timestamp", JVal (VNum 7))])
  ∧ status (errorHandler true 7
              (Exn "value out of range for type integer" (VStr "22003")
                   VUndefined None None)) = 500
  ∧ status (errorHandler true 7
              (Exn "connect ETIMEDOUT" (VStr "ETIMEDOUT") VUndefined None None)) = 500.
Proof. repeat split; reflexivity. Qed.

(** C8, amended.  The [code] of the thrown object decides the answer,
    whatever else the object carries: 23505 gives 409 and 23503 gives
    400, both with the store's [detail] under [details] (the key is left
    out when the store gave none); 22P02 gives 400 and ECONNREFUSED gives
    503, without [details].  Every body is
    [{success:false, error, details?, timestamp}] with the time of the
    call.  An error with any other code, or none, that is neither an
    [ApiError] nor a validation result is answered 500 in the same shape,
    with the generic message in production. *)
Theorem store_failures_are_mapped (production : bool) (ts : Z)
    (message : string) (detail : value) (api : option (Z * json * Z))
    (array : option (list json)) :
  let err code := Exn message (VStr code) detail api array in
  let answer code := errorHandler production ts (err code) in
  let no := JVal (VBool false) in
  let sent_detail :=
    match detail with VUndefined => None | _ => Some (JVal detail) end in
  answer "23505"
    = Response 409
        (JObj [("success", no);
               ("error", JVal (VStr "Запись с такими данными уже существует"));
               ("details", JVal detail); ("timestamp", JVal (VNum ts))])
  ∧ field "details" (body (answer "23505")) = sent_detail
  ∧ answer "23503"
    = Response 400
        (JObj [("success", no); ("error", JVal (VStr "Нарушение связи с другой таблицей"));
               ("details", JVal detail); ("timestamp", JVal (VNum ts))])
  ∧ field "details" (body (answer "23503")) = sent_detail
  ∧ answer "22P02"
    = Response 400
        (JObj [("success", no); ("error", JVal (VStr "Неверный формат данных"));
               ("timestamp", JVal (VNum ts))])
  ∧ answer "ECONNREFUSED"
    = Response 503
        (JObj [("success", no); ("error", JVal (VStr "База данных недоступна"));
               ("timestamp", JVal (VNum ts))])
  ∧ Forall (λ code,
              field "success" (body (answer code)) = Some no
              ∧ (∃ m, field "error" (body (answer code)) = Some (JVal (VStr m)))
              ∧ field "timestamp" (body (answer code)) = Some (JVal (VNum ts))
              ∧ sent_keys (body (answer code)) ⊆ ["success"; "error"; "details"; "timestamp"])
           ["23505"; "23503"; "22P02"; "ECONNREFUSED"]
  ∧ ∀ code : value,
      code ∉ [VStr "23505"; VStr "23503"; VStr "22P02"; VStr "ECONNREFUSED"] →
      errorHandler production ts (Exn message code detail None None)
      = Response 500
          (JObj [("success", no);
                 ("error", JVal (VStr (if production then "Внутренняя ошибка сервера"
                                       else message)));
                 ("timestamp", JVal (VNum ts))]).
Proof.
  intros err answer no sent_detail.
  assert (Hd : ∀ e, field "details"
                      (JObj [("success", no); ("error", JVal (VStr e));
                             ("details", JVal detail); ("timestamp", JVal (VNum ts))])
                    = sent_detail).
  { intros e. unfold sent_detail. by destruct detail. }
  assert (Hshape : ∀ e,
            let j := JObj [("success", no); ("error", JVal (VStr e));
                           ("details", JVal detail); ("timestamp", JVal (VNum ts))] in
            field "success" j = Some no
            ∧ (∃ m, field "error" j = Some (JVal (VStr m)))
            ∧ field "timestamp" j = Some (JVal (VNum ts))
            ∧ sent_keys j ⊆ ["success"; "error"; "details"; "timestamp"]).
  { intros e j. unfold j, field, sent_keys, sent.
    destruct detail; simpl; (split; [reflexivity|]); (split; [eauto|]);
      (split; [reflexivity|]); apply (bool_decide_unpack _); vm_compute; exact I. }
  assert (Hplain : ∀ e,
            let j := JObj [("success", no); ("error", JVal (VStr e));
                           ("timestamp", JVal (VNum ts))] in
            field "success" j = Some no
            ∧ (∃ m, field "error" j = Some (JVal (VStr m)))
            ∧ field "timestamp" j = Some (JVal (VNum ts))
            ∧ sent_keys j ⊆ ["success"; "error"; "details"; "timestamp"]).
  { intros e j. unfold j, field, sent_keys, sent. simpl.
    (split; [reflexivity|]); (split; [eauto|]); (split; [reflexivity|]).
    apply (bool_decide_unpack _); vm_compute; exact I. }
  split; [reflexivity|]. split; [apply Hd|]. split; [reflexivity|]. split; [apply Hd|].
  split; [reflexivity|]. split; [reflexivity|]. split.
  - repeat apply Forall_cons_2; [apply Hshape|apply Hshape|apply Hplain|apply Hplain|].
    apply Forall_nil_2.
  - intros code Hcode. unfold errorHandler, pg_case. simpl e_code.
    destruct (truthy code); [|reflexivity].
    destruct code as [| |b|n|c]; try reflexivity.
    destruct (String.eqb_spec c "23505") as [->|_].
    { exfalso. apply Hcode. apply list_elem_of_here. }
    destruct (String.eqb_spec c "23503") as [->|_].
    { exfalso. apply Hcode. apply list_elem_of_further, list_elem_of_here. }
    destruct (String.eqb_spec c "22P02") as [->|_].
    { exfalso. apply Hcode. do 2 apply list_elem_of_further. apply list_elem_of_here. }
    destruct (String.eqb_spec c "ECONNREFUSED") as [->|_].
    { exfalso. apply Hcode. do 3 apply list_elem_of_further. apply list_elem_of_here. }
    reflexivity.
Qed.

(** The store's own rejection of a duplicate isbn, when it reaches the
    boundary, is answered 409 as well. *)
Lemma unique_violation_answer (production : bool) (ts : Z) (v : value) :
  status (errorHandler production ts (unique_violation v)) = 409.
Proof. reflexivity. Qed.

Lemma store_failures_are_mapped_witness :
  status (errorHandler true 7
            (Exn "value out of range for type integer" (VStr "22003")
                 VUndefined None None)) = 500.
Proof.
  pose proof (store_failures_are_mapped true 7 "value out of range for type integer"
                VUndefined None None) as H.
  cbv zeta in H. destruct H as (_ & _ & _ & _ & _ & _ & _ & H).
  rewrite (H (VStr "22003")); [reflexivity|].
  apply (bool_decide_unpack _). vm_compute. exact I.
Defined.

(** ** C10: a field set to null *)





(** ** The patterns the repository sends *)

Lemma like_tokens_closed (n : nat) (s : string) :
  (String.length s ≤ n)%nat → is_Some (like_tokens (s +:+ "%")).
Proof.
  revert s. induction n as [|n IH]; intros s Hn.
  - destruct s; [|simpl in Hn; lia]. by eexists.
  - destruct s as [|c s]; [by eexists|].
    simpl in Hn. assert (Hs : (String.length s ≤ n)%nat) by lia.
    destruct (IH s Hs) as [ts Hts].
    change (String c s +:+ "%") with (String c (s +:+ "%")).
    destruct (decide (c = "\"%char)) as [->|Hc].
    + destruct s as [|c' s'].
      * by eexists.
      * change (String c' s' +:+ "%") with (String c' (s' +:+ "%")).
        simpl in Hs. destruct (IH s' ltac:(lia)) as [ts' Hts'].
        simpl. rewrite Hts'. by eexists.
    + assert (Hgen : ∀ t, cons t <$> like_tokens (s +:+ "%") = Some (t :: ts))
        by (intros t; by rewrite Hts).
      destruct c as [[] [] [] [] [] [] [] []]; try (simpl; rewrite Hts; by eexists);
        by destruct Hc.
Qed.

(** [%term%] is always a well-formed pattern. *)
Lemma wrapped_pattern_ok (term : string) :
  is_Some (like_tokens ("%" +:+ term +:+ "%")).
Proof.
  change ("%" +:+ term +:+ "%") with (String "%" (term +:+ "%")).
  destruct (like_tokens_closed (String.length term) term (le_n _)) as [ts Hts].
  simpl. rewrite Hts. by eexists.
Qed.

(** ** [Book.findAll], step by step *)

Lemma filters_ok (o : Book.options) (extra : list value) :
  let '(w, ps, i) := Book.filters o in
  i = S (length ps)
  ∧ forallb (patterns_ok (ps ++ extra)) w = true
  ∧ ∀ r, selected (ps ++ extra) w r = selected ps w r.
Proof.
  unfold Book.filters.
  destruct (truthy (Book.genre o)), (truthy (Book.author o)),
    (strict_ne (Book.inStock o) VUndefined); cbn -[like_tokens ilike String.append];
    repeat split; rewrite ?andb_true_r;
    try (apply andb_true_iff; split);
    try (apply bool_decide_eq_true_2, wrapped_pattern_ok);
    try reflexivity.
Qed.

Lemma slice_params (ps : list value) (lim off : Z) :
  bound (ps ++ [VNum lim; VNum off]) (S (length ps)) = VNum lim
  ∧ bound (ps ++ [VNum lim; VNum off]) (S (S (length ps))) = VNum off
  ∧ take (length (ps ++ [VNum lim; VNum off]) - 2) (ps ++ [VNum lim; VNum off]) = ps.
Proof.
  unfold bound. simpl. rewrite Nat.sub_0_r.
  rewrite !lookup_app_r by lia. rewrite Nat.sub_diag.
  replace (S (length ps) - length ps)%nat with 1%nat by lia.
  repeat split. rewrite length_app. simpl.
  replace (length ps + 2 - 2)%nat with (length ps) by lia.
  by rewrite take_app_length.
Qed.

Lemma findAll_run (o : Book.options) (s : string) (st : store) :
  Book.sortOrder o = VStr s →
  0 ≤ Book.limit o → 1 ≤ Book.page o →
  Book.findAll o st
  = (Ok (take (Z.to_nat (Book.limit o))
           (drop (Z.to_nat ((Book.page o - 1) * Book.limit o))
              (merge_sort (row_le (Book.safeSortBy (Book.sortBy o)) (direction_of s))
                 (kept o (books st)))),
         Book.pagination (Book.page o) (Book.limit o)
           (VNum (Z.of_nat (length (kept o (books st)))))),
     st).
Proof.
  intros Hs Hlim Hpage. unfold Book.findAll, kept. rewrite Hs.
  unfold Book.safeSortOrder. fold (direction_of s).
  unfold bind at 1, ret at 1.
  unfold Book.findAll_countSql, Book.findAll_sql.
  pose proof (filters_ok o [VNum (Book.limit o); VNum ((Book.page o - 1) * Book.limit o)])
    as Hf1.
  pose proof (filters_ok o []) as Hf0.
  destruct (Book.filters o) as [[w ps] i]. destruct Hf1 as (-> & Hpat & Hsel).
  destruct Hf0 as (_ & Hpat0 & _). rewrite app_nil_r in Hpat0.
  simpl fst. simpl snd.
  destruct (slice_params ps (Book.limit o) ((Book.page o - 1) * Book.limit o))
    as (Hl & Ho & Htake).
  rewrite Htake.
  unfold bind at 1. unfold query at 1. rewrite Hpat. simpl negb. cbv iota.
  unfold page_of. rewrite Hl, Ho.
  destruct (Z.ltb_spec (Book.limit o) 0) as [?|_]; [lia|].
  destruct (Z.ltb_spec ((Book.page o - 1) * Book.limit o) 0) as [?|_]; [nia|].
  unfold bind, query. rewrite Hpat0. simpl negb. cbv iota.
  unfold ret, Book.total_of. simpl rows.
  rewrite (List.filter_ext _ _ Hsel). unfold sort_by.
  simpl. unfold prop. rewrite lookup_singleton_eq. reflexivity.
Qed.

(** ** What [listBooksValidation] lets through *)





Lemma digit_not_sign (c : ascii) : is_digit c = true → c ≠ "-"%char ∧ c ≠ "+"%char.
Proof. by destruct c as [[] [] [] [] [] [] [] []]. Qed.




(** ** C2: pagination of the list *)




(** ** C3: sorting *)

Lemma value_le_total (a b : value) : value_le a b ∨ value_le b a.
Proof.
  destruct a as [| |x|x|x], b as [| |y|y|y]; simpl; try (left; lia); try (right; lia).
  - destruct x, y; simpl; auto.
  - lia.
  - destruct (total String.le x y); auto.
Qed.

#[local] Instance row_le_total (col : string) (d : direction) : Total (row_le col d).
Proof. intros r1 r2. destruct d; simpl; apply value_le_total. Qed.





Lemma guarded_invalid (production : bool) (chains : list chain) (part : obj)
    (h : obj → M response) (st : store) :
  (run_chains chains part).2 ≠ [] →
  guarded production chains part h st
  = (Response 400
       (JObj [("success", JVal (VBool false));
              ("error", JVal (VStr "Ошибка валидации данных"));
              ("details", JArr (error_json <$> (run_chains chains part).2));
              ("timestamp", JVal (VNum (clock st)))]), st).
Proof.
  unfold guarded. destruct (run_chains chains part) as [p es]. simpl.
  by destruct es.
Qed.




(** ** C4: search *)

(** C4 fails at the term [__]: it passes validation, no book of the sample
    table has two underscores in its title, author or description, and
    the search returns all three books, because the term is sent as a LIKE
    pattern in which [_] stands for any character. *)
Lemma search_term_is_a_pattern :
  run_chains searchValidation {[ "q" := VStr "__" ]} = ({[ "q" := VStr "__" ]}, [])
  ∧ List.filter (mentions "__") (books Sample.seeded) = []
  ∧ guarded false searchValidation {[ "q" := VStr "__" ]} get_search Sample.seeded
    = (Response 200
         (JObj [("success", JVal (VBool true)); ("count", JVal (VNum 3));
                ("data", JArr [JRec Sample.nineteen_eighty_four;
                               JRec Sample.war_and_peace;
                               JRec Sample.crime_and_punishment])]),
       Sample.seeded).
Proof.
  split; [vm_compute; reflexivity|]. split; vm_compute; reflexivity.
Qed.

(** ** C9: the inStock filter *)

(** C9 fails at [inStock=1]: the value passes validation, the handler
    turns it into [false], and the list holds the one book that is out of
    stock. *)
Lemma inStock_one_lists_out_of_stock :
  run_chains listBooksValidation {[ "inStock" := VStr "1" ]}
  = ({[ "inStock" := VStr "1" ]}, [])
  ∧ Book.inStock (list_options {[ "inStock" := VStr "1" ]}) = VBool false
  ∧ guarded false listBooksValidation {[ "inStock" := VStr "1" ]} get_books Sample.seeded
    = (Response 200
         (JObj [("success", JVal (VBool true));
                ("data", JArr [JRec Sample.nineteen_eighty_four]);
                ("pagination",
                 JRec (list_to_map
                         [("currentPage", VNum 1); ("totalPages", VNum 1);
                          ("totalItems", VNum 1); ("itemsPerPage", VNum 10)]))]),
       Sample.seeded).
Proof.
  split; [vm_compute; reflexivity|]. split; vm_compute; reflexivity.
Qed.

(** * Further properties of the handlers and the repository *)

(** ** Reading and deleting one book *)







(** ** Create, then read *)

Lemma first_with_app_r (col : string) (v : value) (t : list obj) (r : obj) :
  v ∉ (λ x, prop x col) <$> t → prop r col = v → first_with col v (t ++ [r]) = Some r.
Proof.
  intros Hout Hr. unfold first_with. induction t as [|x t IH]; simpl.
  - by rewrite bool_decide_eq_true_2.
  - rewrite fmap_cons in Hout. apply not_elem_of_cons in Hout as [Hx Ht].
    rewrite bool_decide_eq_false_2 by (intros E; by apply Hx). by apply IH.
Qed.

(** X3.  Round trip.  When the id sequence is ahead of the table, the row a
    successful [create] returns is the row [findById] finds under the new
    id in the store [create] leaves. *)
Theorem created_book_is_found (input : obj) (st st' : store) (r : obj) :
  VNum (books_id_seq st) ∉ ids (books st) →
  Book.create input st = (Ok (Some r), st') →
  Book.findById (VNum (books_id_seq st)) st' = (Ok (Some r), st').
Proof.
  intros Hfresh Hc.
  destruct (create_success input st st' r Hc) as (Hrows & _ & Hid & _).
  rewrite findById_spec, Hrows. f_equal. f_equal.
  apply first_with_app_r; [exact Hfresh|]. unfold prop. by rewrite Hid.
Qed.

Lemma created_book_is_found_witness :
  Book.findById (VNum 6)
    (Store (books Sample.seeded ++ [orwell_row]) 7 2000)
  = (Ok (Some orwell_row), Store (books Sample.seeded ++ [orwell_row]) 7 2000).
Proof.
  apply (created_book_is_found orwell Sample.seeded).
  - apply (bool_decide_unpack _). vm_compute. exact I.
  - vm_compute. reflexivity.
Defined.

(** ** The page of a list *)



(** ** Search *)


(** X6.  The terms [searchValidation] lets through are those of 2 to 100
    characters once trimmed; any other request is answered 400 and the
    search is not run.  The term is taken in the ASCII range. *)
Theorem search_term_length (production : bool) (st : store) (q : obj) :
  is_ascii (toString (prop q "q")) = true →
  let n := String.length (trim (toString (prop q "q"))) in
  ((run_chains searchValidation q).2 = [] ↔ (2 ≤ n ≤ 100)%nat)
  ∧ (¬ (2 ≤ n ≤ 100)%nat →
     status (guarded production searchValidation q get_search st).1 = 400
     ∧ (guarded production searchValidation q get_search st).2 = st).
Proof.
  intros _ n.
  assert (Hiff : (run_chains searchValidation q).2 = [] ↔ (2 ≤ n ≤ 100)%nat).
  { unfold searchValidation. cbn [run_chains]. unfold run_chain.
    simpl c_field. simpl c_steps. unfold skipped. simpl c_optional.
    cbn [run_steps]. change (toString (VStr ?x)) with x.
    cbn [snd]. rewrite app_nil_r. unfold notEmpty, isLength.
    set (s := trim (toString (prop q "q"))) in *. fold n.
    destruct (String.eqb_spec s "") as [Hs|Hs]; simpl negb; cbv iota.
    - assert (Hn : n = 0%nat) by (unfold n; by rewrite Hs). split; [done|lia].
    - destruct (Nat.leb_spec 2 n), (Nat.leb_spec n 100); simpl; split; try done; lia. }
  split; [exact Hiff|]. intros Hbad.
  rewrite guarded_invalid by (by rewrite Hiff). split; reflexivity.
Qed.

Lemma search_term_length_witness :
  status (guarded false searchValidation {[ "q" := VStr " a " ]} get_search
            Sample.seeded).1 = 400.
Proof.
  apply (search_term_length false Sample.seeded {[ "q" := VStr " a " ]}).
  - vm_compute. reflexivity.
  - vm_compute. lia.
Defined.

(** ** The isbn rule *)




(** ** Creating a book *)





(** ** The ORDER BY of a list *)


(** ** The answers of the error handler *)

(** X10.  An error the handlers raise themselves keeps its status, message,
    details and the time it was raised, in production too.  An error of
    no known kind is answered 500: with its own message outside
    production, with a fixed text in production, and without details. *)
Theorem handler_answers (production : bool) (ts : Z) (err : exn) :
  (∀ statusCode message details created,
     errorHandler production ts (ApiError statusCode message details created)
     = Response statusCode
         (JObj [("success", JVal (VBool false)); ("error", JVal (VStr message));
                ("details", details); ("timestamp", JVal (VNum created))]))
  ∧ (truthy (e_code err) = false → e_api err = None → e_array err = None →
     errorHandler production ts err
     = Response 500
         (JObj [("success", JVal (VBool false));
                ("error", JVal (VStr (if production then "Внутренняя ошибка сервера"
                                      else e_message err)));
                ("timestamp", JVal (VNum ts))])).
Proof.
  split; [reflexivity|].
  intros Hc Ha Hr. unfold errorHandler, pg_case. by rewrite Hc, Ha, Hr.
Qed.

Lemma handler_answers_witness :
  errorHandler true 5 (Exn "connect ETIMEDOUT 10.0.0.5:5432" VUndefined VUndefined None None)
  = Response 500
      (JObj [("success", JVal (VBool false));
             ("error", JVal (VStr "Внутренняя ошибка сервера"));
             ("timestamp", JVal (VNum 5))]).
Proof.
  apply (handler_answers true 5
           (Exn "connect ETIMEDOUT 10.0.0.5:5432" VUndefined VUndefined None None));
    reflexivity.
Defined.

(** ** A list request without parameters *)

Lemma filter_all {A} (l : list A) : List.filter (λ _, true) l = l.
Proof. induction l as [|x l IH]; [done|]. simpl. by rewrite IH. Qed.

(** X11.  [GET /api/books] with no query parameter answers 200 with the first
    ten books, the most recently created first, and a pagination that
    counts every book of the table: the rows sent are the first ten, or
    all when there are fewer, of the table put in descending order of
    [created_at]. *)
Theorem list_defaults (production : bool) (st : store) :
  ∃ (data rest : list obj) (p : obj),
    guarded production listBooksValidation ∅ get_books st
    = (Response 200
         (JObj [("success", JVal (VBool true)); ("data", JArr (JRec <$> data));
                ("pagination", JRec p)]), st)
    ∧ length data = Nat.min 10 (length (books st))
    ∧ data ++ rest ≡ₚ books st
    ∧ Sorted (row_le "created_at" DESC) (data ++ rest)
    ∧ p !! "currentPage" = Some (VNum 1)
    ∧ p !! "itemsPerPage" = Some (VNum 10)
    ∧ p !! "totalItems" = Some (VNum (Z.of_nat (length (books st)))).
Proof.
  exists (take 10 (merge_sort (row_le "created_at" DESC) (books st))),
         (drop 10 (merge_sort (row_le "created_at" DESC) (books st))),
         (Book.pagination 1 10 (VNum (Z.of_nat (length (books st))))).
  rewrite take_drop. split; [|split; [|split; [|split; [|by repeat split]]]].
  - unfold guarded.
    assert (Hv : run_chains listBooksValidation ∅ = (∅, [])) by (vm_compute; reflexivity).
    rewrite Hv. simpl validate. cbv iota.
    assert (Ho : list_options ∅
                 = Book.Options 1 10 (VStr "created_at") (VStr "DESC")
                     VUndefined VUndefined VUndefined) by (vm_compute; reflexivity).
    unfold serve, get_books, bind. rewrite Ho.
    rewrite (findAll_run _ "DESC" st); [|reflexivity|done|done].
    unfold kept. cbn [Book.page Book.limit Book.sortBy].
    change (Book.safeSortBy (VStr "created_at")) with "created_at".
    change (direction_of "DESC") with DESC.
    change (Z.to_nat ((1 - 1) * 10)) with 0%nat. rewrite drop_0.
    change (Z.to_nat 10) with 10%nat.
    assert (Hk : List.filter
                   (selected
                      (Book.filters
                         (Book.Options 1 10 (VStr "created_at") (VStr "DESC")
                            VUndefined VUndefined VUndefined)).1.2
                      (Book.filters
                         (Book.Options 1 10 (VStr "created_at") (VStr "DESC")
                            VUndefined VUndefined VUndefined)).1.1) (books st)
                 = books st) by apply filter_all.
    rewrite Hk. reflexivity.
  - rewrite length_take. by rewrite (Permutation_length (merge_sort_Permutation _ _)).
  - apply merge_sort_Permutation.
  - apply Sorted_merge_sort. apply row_le_total.
Qed.

(** ** A deleted book is gone *)




